(** * shopifyPi: the order display of [mainApp.py]

    A shallow embedding of [DisplayManager] (the SH1106 order display):
    the screen builder [_create_order_screens], the display state
    machine run by [display_loop], the order event [set_new_order] and
    the blocking [show_lightning_animation].

    Conventions of the embedding.
    - Python [int] is [Z]; list indexing follows Python, negative
      indices included ([Py.getitem]).
    - Python [str] is [string]; one [ascii] stands for one character, so
      [len] is [String.length].
    - [time.time()] returns a rational number of seconds ([Q]); every
      call of it in a loop body is a separate clock reading, passed in
      source order.  Rounding of floating point numbers is not modelled.
    - A Python exception that leaves a method is an explicit result
      ([option exn] next to the object as the method left it).
    - [loop_iteration] and [set_new_order] are a pass of the display
      loop and a call of the handler that run from their first line to
      their last without the other thread in between.  The two threads
      share the session without a lock: [Threads] follows a pass from
      stop to stop, with the steps of the handler in between, and
      [reachable] is about these executions.
    - An order is a payload from which line 188 builds the screens
      ([encodes]).  Any other payload raises there, after line 187 has
      stored it in [order_data], a field that no method reads; such a
      call changes nothing else and is not an action of [Threads]. *)

From Stdlib Require Import ZArith QArith Bool String Ascii List DecimalString Lia.
From Stdlib Require Import Qround Lqa.
Import ListNotations.

Local Open Scope string_scope.
Local Open Scope list_scope.
Local Open Scope Z_scope.

(** ** Python helpers *)

Module Py.

(** The line break ["\n"]. *)
Definition nl : string := String (ascii_of_nat 10) EmptyString.

(** [sep.join(parts)]. *)
Definition join (sep : string) (parts : list string) : string :=
  String.concat sep parts.

(** [str(n)] for an [int], as an f-string prints it. *)
Definition str_int (n : Z) : string := NilZero.string_of_int (Z.to_int n).

(** [sum(...)] over a list of [int]. *)
Definition sum (l : list Z) : Z := fold_left Z.add l 0.

(** [len(l)] as a Python [int]. *)
Definition len {A : Type} (l : list A) : Z := Z.of_nat (List.length l).

(** [l[i]]: an index in [0, len) counts from the front, one in
    [-len, 0) from the back, any other raises [IndexError] ([None]). *)
Definition getitem {A : Type} (l : list A) (i : Z) : option A :=
  if (0 <=? i) && (i <? len l) then nth_error l (Z.to_nat i)
  else if (- len l <=? i) && (i <? 0) then nth_error l (Z.to_nat (len l + i))
  else None.

(** [a < b] on clock readings, as a boolean. *)
Definition ltb (a b : Q) : bool := negb (Qle_bool b a).

End Py.

(** ** The order payload *)

Record LineItem := mkLineItem {
  item_name : string;
  quantity : Z
}.

Record Customer := mkCustomer {
  first_name : string
}.

Record Order := mkOrder {
  name : string;
  total_price : string;
  currency : string;
  customer : Customer;
  line_items : list LineItem
}.

(** ** Screen builder: [DisplayManager._create_order_screens] *)

Definition lines_per_screen : nat := 2.

(** The unpaginated entries, [screen_data] in the source. *)
Definition screen_data (data : Order) : list string :=
  let total_items := Py.sum (map quantity (line_items data)) in
  [ ("Order " ++ name data)%string;
    ("Total: " ++ total_price data ++ " " ++ currency data)%string;
    ("Items: " ++ Py.str_int total_items)%string;
    ("Customer:" ++ Py.nl ++ first_name (customer data))%string ]
  ++ map (fun item => ("Product:" ++ Py.nl ++ item_name item)%string)
         (line_items data).

(** One pass of the [for line in screen_data] loop over the pair
    [(screens, temp)]. *)
Definition group_step (acc : list string * list string) (line : string)
  : list string * list string :=
  let '(screens, temp) := acc in
  let temp := temp ++ [line] in
  if Nat.eqb (List.length temp) lines_per_screen
  then (screens ++ [Py.join Py.nl temp], [])
  else (screens, temp).

(** The [if temp:] after the loop. *)
Definition group_finish (acc : list string * list string) : list string :=
  let '(screens, temp) := acc in
  match temp with
  | [] => screens
  | _ :: _ => screens ++ [Py.join Py.nl temp]
  end.

Definition _create_order_screens (data : Order) : list string :=
  group_finish (fold_left group_step (screen_data data) ([], [])).

(** The reference pagination, written from the specification: entries
    are taken two at a time and joined by a line break, a trailing
    single entry is a screen of its own. *)
Fixpoint paginate (entries : list string) : list string :=
  match entries with
  | [] => []
  | [e] => [e]
  | e1 :: e2 :: rest => (e1 ++ Py.nl ++ e2)%string :: paginate rest
  end.

(** The reference entry list, written from the specification. *)
Definition reference_entries (o : Order) : list string :=
  [ ("Order " ++ name o)%string;
    ("Total: " ++ total_price o ++ " " ++ currency o)%string;
    ("Items: " ++ Py.str_int (fold_right Z.add 0 (map quantity (line_items o))))%string;
    ("Customer:" ++ Py.nl ++ first_name (customer o))%string ]
  ++ map (fun it => ("Product:" ++ Py.nl ++ item_name it)%string) (line_items o).

(** The order of the specification's scenario. *)
Definition order_1001 : Order :=
  mkOrder "#1001" "42.50" "USD" (mkCustomer "Alice") [mkLineItem "Widget" 2].

(** ** The display manager *)

(** The state tags [CELEBRATION = 1], [ORDER_INFO = 2], [IDLE = 3]. *)
Inductive DisplayState := CELEBRATION | ORDER_INFO | IDLE.

(** What the manager reads of [self.device]. *)
Record Device := mkDevice {
  width : Z;
  height : Z
}.

Record DisplayManager := mkDisplayManager {
  device : Device;
  display_state : DisplayState;
  state_start_time : Q;
  scroll_position : Z;
  screens : list string;
  screen_index : Z;
  cycles_remaining : Z;
  order_data : option Order;
  running : bool
}.

(** Assignments to the attributes of [self]. *)
Definition set_display_state (v : DisplayState) (s : DisplayManager) :=
  mkDisplayManager (device s) v (state_start_time s) (scroll_position s)
    (screens s) (screen_index s) (cycles_remaining s) (order_data s) (running s).

Definition set_state_start_time (v : Q) (s : DisplayManager) :=
  mkDisplayManager (device s) (display_state s) v (scroll_position s)
    (screens s) (screen_index s) (cycles_remaining s) (order_data s) (running s).

Definition set_scroll_position (v : Z) (s : DisplayManager) :=
  mkDisplayManager (device s) (display_state s) (state_start_time s) v
    (screens s) (screen_index s) (cycles_remaining s) (order_data s) (running s).

Definition set_screens (v : list string) (s : DisplayManager) :=
  mkDisplayManager (device s) (display_state s) (state_start_time s)
    (scroll_position s) v (screen_index s) (cycles_remaining s) (order_data s)
    (running s).

Definition set_screen_index (v : Z) (s : DisplayManager) :=
  mkDisplayManager (device s) (display_state s) (state_start_time s)
    (scroll_position s) (screens s) v (cycles_remaining s) (order_data s)
    (running s).

Definition set_cycles_remaining (v : Z) (s : DisplayManager) :=
  mkDisplayManager (device s) (display_state s) (state_start_time s)
    (scroll_position s) (screens s) (screen_index s) v (order_data s) (running s).

Definition set_order_data (v : option Order) (s : DisplayManager) :=
  mkDisplayManager (device s) (display_state s) (state_start_time s)
    (scroll_position s) (screens s) (screen_index s) (cycles_remaining s) v
    (running s).

Definition set_running (v : bool) (s : DisplayManager) :=
  mkDisplayManager (device s) (display_state s) (state_start_time s)
    (scroll_position s) (screens s) (screen_index s) (cycles_remaining s)
    (order_data s) v.

(** [DisplayManager.__init__]: the attributes after construction, [now]
    being the clock reading stored in [state_start_time]. *)
Definition init (w h : Z) (now : Q) : DisplayManager :=
  mkDisplayManager (mkDevice w h) IDLE now 0 [] 0 0 None true.

(** [DisplayManager.stop]. *)
Definition stop (s : DisplayManager) : DisplayManager := set_running false s.

(** [DisplayManager.set_new_order], [now] being its [time.time()]. *)
Definition set_new_order (order : Order) (now : Q) (s : DisplayManager)
  : DisplayManager :=
  let s := set_order_data (Some order) s in
  let s := set_screens (_create_order_screens order) s in
  let s := set_scroll_position 0 s in
  let s := set_display_state CELEBRATION s in
  set_state_start_time now s.

(** ** One pass of [display_loop] *)

(** The exceptions a pass can raise. *)
Inductive exn := IndexError | ZeroDivisionError | ValueError | DisplayError.

(** What a pass takes from outside: the clock readings of its
    [time.time()] calls in source order, and whether the calls that
    reach the display succeed. *)
Record Tick := mkTick {
  now_check : Q;   (* compared with [state_start_time] *)
  now_enter : Q;   (* stored when the state or the screen changes *)
  now_idle : Q;    (* stored on entering [IDLE] *)
  draw_ok : bool;  (* the drawing calls of the frame *)
  clear_ok : bool; (* [device.clear()] *)
  commit_ok : bool (* the flush of the frame when the canvas is left *)
}.

(** The literals of the loop body. *)
Definition CELEBRATION_DURATION : Q := 3.
Definition ORDER_CYCLES : Z := 2.
Definition SCREEN_TIMEOUT : Q := 8.
Definition SCROLL_STEP : Z := 10.
Definition SCROLL_PADDING : Z := 156.

(** The branch [display_state == CELEBRATION]. *)
Definition celebration_pass (t : Tick) (s : DisplayManager)
  : DisplayManager * option exn :=
  if negb (draw_ok t) then (s, Some DisplayError)
  else if Py.ltb CELEBRATION_DURATION (now_check t - state_start_time s)
  then
    let s := set_display_state ORDER_INFO s in
    let s := set_state_start_time (now_enter t) s in
    let s := set_screen_index 0 s in
    let s := set_cycles_remaining ORDER_CYCLES s in
    (s, None)
  else (s, None).

(** The body of [if time.time() - state_start_time > 8 or ...]. *)
Definition advance_screen (t : Tick) (s : DisplayManager) : DisplayManager :=
  let s := set_screen_index (screen_index s + 1) s in
  let s := set_scroll_position 0 s in
  let s := set_state_start_time (now_enter t) s in
  if screen_index s >=? Py.len (screens s) then
    let s := set_screen_index 0 s in
    let s := set_cycles_remaining (cycles_remaining s - 1) s in
    if cycles_remaining s <=? 0 then
      let s := set_display_state IDLE s in
      set_state_start_time (now_idle t) s
    else s
  else s.

(** The branch [display_state == ORDER_INFO]. *)
Definition order_info_pass (t : Tick) (s : DisplayManager)
  : DisplayManager * option exn :=
  match screens s with
  | [] => (s, None)
  | _ :: _ =>
    match Py.getitem (screens s) (screen_index s) with
    | None => (s, Some IndexError)
    | Some text =>
      let max_width := Z.of_nat (String.length text) in
      let scroll_limit := max_width + width (device s) + SCROLL_PADDING in
      if negb (draw_ok t) then (s, Some DisplayError)
      else if (screen_index s >? 1) && (scroll_limit =? 0)
      then (s, Some ZeroDivisionError)
      else
        let s :=
          if screen_index s >? 1
          then set_scroll_position
                 ((scroll_position s + SCROLL_STEP) mod scroll_limit) s
          else s in
        if Py.ltb SCREEN_TIMEOUT (now_check t - state_start_time s)
           || (scroll_position s >=? scroll_limit + max_width)
        then (advance_screen t s, None)
        else (s, None)
    end
  end.

(** The branch [display_state == IDLE]. *)
Definition idle_pass (t : Tick) (s : DisplayManager)
  : DisplayManager * option exn :=
  if clear_ok t then (s, None) else (s, Some DisplayError).

(** The body of [with canvas(self.device) as draw:]. *)
Definition loop_body (t : Tick) (s : DisplayManager)
  : DisplayManager * option exn :=
  match display_state s with
  | CELEBRATION => celebration_pass t s
  | ORDER_INFO => order_info_pass t s
  | IDLE => idle_pass t s
  end.

(** One iteration of [while self.running]: the body, then the flush of
    the frame when the body raised nothing. *)
Definition loop_iteration (t : Tick) (s : DisplayManager)
  : DisplayManager * option exn :=
  match loop_body t s with
  | (s', Some e) => (s', Some e)
  | (s', None) => if commit_ok t then (s', None) else (s', Some DisplayError)
  end.

(** The manager after a pass. *)
Definition after_tick (t : Tick) (s : DisplayManager) : DisplayManager :=
  fst (loop_iteration t s).

(** How a run of the loop over finitely many passes ended. *)
Inductive LoopStatus :=
| Looping            (* the passes given are used up, the loop goes on *)
| Stopped            (* [self.running] was found false *)
| Crashed (e : exn). (* an exception left the loop *)

(** [display_loop] over the passes [ticks]. *)
Fixpoint display_loop (ticks : list Tick) (s : DisplayManager)
  : DisplayManager * LoopStatus :=
  match ticks with
  | [] => (s, if running s then Looping else Stopped)
  | t :: rest =>
    if running s then
      match loop_iteration t s with
      | (s', None) => display_loop rest s'
      | (s', Some e) => (s', Crashed e)
      end
    else (s, Stopped)
  end.

(** The number of passes [display_loop] carries out to their end. *)
Fixpoint passes_completed (ticks : list Tick) (s : DisplayManager) : nat :=
  match ticks with
  | [] => 0
  | t :: rest =>
    if running s then
      match loop_iteration t s with
      | (s', None) => S (passes_completed rest s')
      | (_, Some _) => 0
      end
    else 0
  end.

(** ** The two threads *)

(** [display_loop] runs in a thread of its own ([start], line 105)
    while the handler of the webhook calls [set_new_order] in another;
    nothing locks the session.  The display thread is followed through
    a pass in [ORDER_INFO] from one stop to the next, where the other
    thread can run: the call of [len] on line 130, the draw on line 135
    or 140, line 137 between the read of [scroll_position] and the
    store of the new offset (an interpreter that switches between any
    two instructions), and the call of [time.time] on line 146.  A pass
    in another state runs in one step.  The handler runs
    [set_new_order] in one step, or its lines 187 and 188 only; [stop]
    is one store.

    Every execution below is an execution of the program.  The program
    has more of them: it can switch at other places too. *)
Module Threads.

(** Where the display thread stands, with the locals it holds. *)
Inductive Pc :=
| Top                       (* before a pass: at [while self.running] *)
| AfterLen (max_width : Z)  (* line 130: [len] has returned *)
| Drawing (max_width scroll_limit : Z) (scrolling : bool)
                            (* inside the draw of line 135 or 140 *)
| Storing (max_width scroll_limit offset : Z)
                            (* line 137: the new offset is computed *)
| AtEnter.                  (* in [time.time()] of line 146 *)

Record Config := mkConfig {
  session : DisplayManager;
  pc : Pc;
  crashed : option exn  (* the exception that ended the display thread *)
}.

(** [display_manager.start()]: the display thread is at its first
    pass. *)
Definition start (s : DisplayManager) : Config := mkConfig s Top None.

Definition crash (e : exn) (s : DisplayManager) : Config :=
  mkConfig s Top (Some e).

(** The end of [with canvas(...)]: the flush of the frame. *)
Definition leave_canvas (t : Tick) (s : DisplayManager) : Config :=
  if commit_ok t then mkConfig s Top None else crash DisplayError s.

(** Lines 146 to 152, from the return of [time.time()]. *)
Definition enter_screen (t : Tick) (s : DisplayManager) : DisplayManager :=
  let s := set_state_start_time (now_enter t) s in
  if screen_index s >=? Py.len (screens s) then
    let s := set_screen_index 0 s in
    let s := set_cycles_remaining (cycles_remaining s - 1) s in
    if cycles_remaining s <=? 0 then
      let s := set_display_state IDLE s in
      set_state_start_time (now_idle t) s
    else s
  else s.

(** Lines 143 to 145: the advance test and the first two assignments
    of its body. *)
Definition check_advance (t : Tick) (max_width scroll_limit : Z)
    (s : DisplayManager) : Config :=
  if Py.ltb SCREEN_TIMEOUT (now_check t - state_start_time s)
     || (scroll_position s >=? scroll_limit + max_width)
  then
    let s := set_screen_index (screen_index s + 1) s in
    let s := set_scroll_position 0 s in
    mkConfig s AtEnter None
  else leave_canvas t s.

(** The display thread runs to its next stop. *)
Definition display_step (t : Tick) (c : Config) : Config :=
  let s := session c in
  match crashed c with
  | Some _ => c
  | None =>
    match pc c with
    | Top =>
      if running s then
        match display_state s with
        | ORDER_INFO =>
          match screens s with
          | [] => leave_canvas t s
          | _ :: _ =>
            match Py.getitem (screens s) (screen_index s) with
            | None => crash IndexError s
            | Some text =>
                mkConfig s (AfterLen (Z.of_nat (String.length text))) None
            end
          end
        | _ => mkConfig (fst (loop_iteration t s)) Top (snd (loop_iteration t s))
        end
      else c
    | AfterLen max_width =>
      let scroll_limit := max_width + width (device s) + SCROLL_PADDING in
      match Py.getitem (screens s) (screen_index s) with
      | None => crash IndexError s
      | Some _ =>
        if draw_ok t
        then mkConfig s (Drawing max_width scroll_limit (screen_index s >? 1)) None
        else crash DisplayError s
      end
    | Drawing max_width scroll_limit scrolling =>
      if scrolling then
        if scroll_limit =? 0 then crash ZeroDivisionError s
        else
          mkConfig s
            (Storing max_width scroll_limit
               ((scroll_position s + SCROLL_STEP) mod scroll_limit))
            None
      else check_advance t max_width scroll_limit s
    | Storing max_width scroll_limit offset =>
      check_advance t max_width scroll_limit (set_scroll_position offset s)
    | AtEnter => leave_canvas t (enter_screen t s)
    end
  end.

(** Lines 187 and 188 of [set_new_order]. *)
Definition store_screens (order : Order) (s : DisplayManager) : DisplayManager :=
  set_screens (_create_order_screens order) (set_order_data (Some order) s).

(** What a thread does while the other waits. *)
Inductive Action :=
| DisplayRuns (t : Tick)                 (* the display thread, to its next stop *)
| OrderArrives (order : Order) (now : Q) (* the handler runs [set_new_order] *)
| OrderStores (order : Order)            (* the handler runs lines 187 and 188 *)
| Stops.                                 (* [stop()] *)

Definition act (c : Config) (a : Action) : Config :=
  match a with
  | DisplayRuns t => display_step t c
  | OrderArrives order now =>
      mkConfig (set_new_order order now (session c)) (pc c) (crashed c)
  | OrderStores order =>
      mkConfig (store_screens order (session c)) (pc c) (crashed c)
  | Stops => mkConfig (stop (session c)) (pc c) (crashed c)
  end.

Definition execute (actions : list Action) (c : Config) : Config :=
  fold_left act actions c.

(** The executions of [__main__]: the manager is built on a device of
    positive size, the display thread is started, and the threads take
    their steps in any order. *)
Inductive run : Config -> Prop :=
| run_start (w h : Z) (now : Q) :
    0 < w -> 0 < h -> run (start (init w h now))
| run_act (c : Config) (a : Action) :
    run c -> run (act c a).

(** The display thread runs on to the end of its pass. *)
Definition step_on (t : Tick) (c : Config) : Config :=
  match pc c with
  | Top => c
  | _ => display_step t c
  end.

(** A pass during which the other thread does not run. *)
Definition whole_pass (t : Tick) (s : DisplayManager) : Config :=
  step_on t (step_on t (step_on t (step_on t (display_step t (start s))))).

End Threads.

(** ** Runs of the state machine *)

(** The states the session can be in: those of the executions of the
    two threads. *)
Definition reachable (s : DisplayManager) : Prop :=
  exists c : Threads.Config, Threads.run c /\ Threads.session c = s.

(** ... with the display thread alive and between two passes. *)
Definition between_passes (s : DisplayManager) : Prop :=
  Threads.run (Threads.start s).

(** The screen shown by a pass in [ORDER_INFO] is the last one and the
    pass leaves the index at 0: the index wrapped. *)
Definition wrapped (s s' : DisplayManager) : bool :=
  match display_state s with
  | ORDER_INFO =>
      (screen_index s =? Py.len (screens s) - 1) && (screen_index s' =? 0)
  | _ => false
  end.

(** The number of wraps during [display_loop ticks s]. *)
Fixpoint wraps_during (ticks : list Tick) (s : DisplayManager) : nat :=
  match ticks with
  | [] => 0
  | t :: rest =>
    if running s then
      let '(s', e) := loop_iteration t s in
      ((if wrapped s s' then 1 else 0)
       + match e with None => wraps_during rest s' | Some _ => 0 end)%nat
    else 0%nat
  end.

(** The scroll limit of a screen text on the manager's device, as the
    pass computes it. *)
Definition scroll_limit_of (s : DisplayManager) (text : string) : Z :=
  Z.of_nat (String.length text) + width (device s) + SCROLL_PADDING.

(** The width-based half of the advance test, on the offset [p]. *)
Definition width_disjunct (s : DisplayManager) (text : string) (p : Z) : bool :=
  p >=? scroll_limit_of s text + Z.of_nat (String.length text).

(** The offset of a pass after its scroll update. *)
Definition scrolled_position (s : DisplayManager) (text : string) : Z :=
  if screen_index s >? 1
  then (scroll_position s + SCROLL_STEP) mod scroll_limit_of s text
  else scroll_position s.

(** The manager of a pass after its scroll update. *)
Definition scrolled (s : DisplayManager) (text : string) : DisplayManager :=
  if screen_index s >? 1
  then set_scroll_position
         ((scroll_position s + SCROLL_STEP) mod scroll_limit_of s text) s
  else s.

(** ** Text metrics *)

(** Modelled from the spec: the [TextMetrics] capability, of which the
    repository has only the calls of [draw.textlength]; it measures the
    width of a text in pixels. *)
Record TextMetrics := mkTextMetrics {
  measureTextWidth : string -> Z
}.

(** The length of the longest line of a text. *)
Fixpoint widest_line (text : string) (cur best : nat) : nat :=
  match text with
  | EmptyString => Nat.max cur best
  | String c rest =>
      if Ascii.eqb c (ascii_of_nat 10)
      then widest_line rest 0 (Nat.max cur best)
      else widest_line rest (S cur) best
  end.

(** A font in which every character is [px] pixels wide. *)
Definition fixed_pitch (px : Z) : TextMetrics :=
  mkTextMetrics (fun text => px * Z.of_nat (widest_line text 0 0)).

(** ** The lightning animation *)

(** What is drawn on a canvas. *)
Inductive DrawOp :=
| Rectangle (x0 y0 x1 y1 : Z) (outline fill : string)
| Line (x1 y1 x2 y2 : Z) (fill : string) (line_width : Z).

Definition Frame := list DrawOp.

(** [random.randint(a, b)] on the value [raw] of the generator:
    [ValueError] ([None]) on an empty range. *)
Definition randint (a b raw : Z) : option Z :=
  if b <? a then None else Some (a + raw mod (b - a + 1)).

(** The [for _ in range(num_segments)] loop of [_draw_lightning]; the
    draws of the generator are [rng k], [rng (k+1)], ... *)
Fixpoint bolt_segments (dev : Device) (rng : nat -> Z) (k n : nat)
    (current_x current_y : Z) : option (list (Z * Z * Z * Z)) :=
  match n with
  | O => Some []
  | S n' =>
    match randint (- width dev / 4) (width dev / 4) (rng k),
          randint (height dev / 8) (height dev / 6) (rng (S k)) with
    | Some dx, Some dy =>
      let new_x := Z.max 0 (Z.min (width dev - 1) (current_x + dx)) in
      let new_y := Z.max 0 (Z.min (height dev - 1) (current_y + dy)) in
      option_map (cons (current_x, current_y, new_x, new_y))
        (bolt_segments dev rng (S (S k)) n' new_x new_y)
    | _, _ => None
    end
  end.

(** [DisplayManager._draw_lightning]: the lines of one bolt. *)
Definition _draw_lightning (dev : Device) (rng : nat -> Z) : option Frame :=
  match randint (width dev / 4) (width dev / 4 * 3) (rng 0%nat),
        randint 5 8 (rng 1%nat) with
  | Some start_x, Some num_segments =>
    option_map
      (map (fun '(x1, y1, x2, y2) => Line x1 y1 x2 y2 "white" 1))
      (bolt_segments dev rng 2 (Z.to_nat num_segments) start_x 0)
  | _, _ => None
  end.

(** What one pass of the animation loop takes from outside. *)
Record Flash := mkFlash {
  flash_now : Q;          (* [time.time()] of the loop test *)
  flash_rng : nat -> Z;   (* the draws of the generator, in order *)
  bolt_commit_ok : bool;  (* the flush of the bolt frame *)
  blank_commit_ok : bool  (* the flush of the black frame *)
}.

(** How the call ended on the passes given. *)
Inductive AnimStatus :=
| Returned             (* the loop test failed: the call returns *)
| Pending              (* the passes given are used up *)
| Raised (e : exn).

(** The [while time.time() - start_time < duration] loop; [shown] are
    the frames flushed so far. *)
Fixpoint lightning_loop (duration start_time : Q) (flashes : list Flash)
    (s : DisplayManager) (shown : list Frame)
  : DisplayManager * list Frame * AnimStatus :=
  match flashes with
  | [] => (s, shown, Pending)
  | f :: rest =>
    if Py.ltb (flash_now f - start_time) duration then
      let black :=
        Rectangle 0 0 (width (device s)) (height (device s)) "black" "black" in
      match _draw_lightning (device s) (flash_rng f) with
      | None => (s, shown, Raised ValueError)
      | Some bolt =>
        if negb (bolt_commit_ok f) then (s, shown, Raised DisplayError)
        else
          let shown := shown ++ [black :: bolt] in
          if negb (blank_commit_ok f) then (s, shown, Raised DisplayError)
          else lightning_loop duration start_time rest s (shown ++ [[black]])
      end
    else (s, shown, Returned)
  end.

(** [DisplayManager.show_lightning_animation], [start_time] being its
    first clock reading. *)
Definition show_lightning_animation (duration start_time : Q)
    (flashes : list Flash) (s : DisplayManager)
  : DisplayManager * list Frame * AnimStatus :=
  lightning_loop duration start_time flashes s [].

(** ** Sample runs *)

Definition tick_at (now : Q) : Tick := mkTick now now now true true true.

(** The manager of [__main__] after the scenario's order at time 0. *)
Definition after_order : DisplayManager :=
  set_new_order order_1001 0 (init 128 64 0).

(** ... after the banner: [ORDER_INFO], first screen. *)
Definition on_screen_0 : DisplayManager := after_tick (tick_at 4) after_order.

(** ... on the second and on the third screen. *)
Definition on_screen_1 : DisplayManager := after_tick (tick_at 13) on_screen_0.
Definition on_screen_2 : DisplayManager := after_tick (tick_at 22) on_screen_1.

(** ... on the third screen after 29 more passes, none of them late
    enough to leave the screen. *)
Definition scrolling_screen_2 : DisplayManager :=
  Nat.iter 29 (after_tick (tick_at 23)) on_screen_2.

(** A pass whose frame cannot be flushed. *)
Definition failing_commit (now : Q) : Tick := mkTick now now now true true false.


(** The clock reading of a pass of the animation is inside the
    duration. *)
Definition within_duration (duration start_time : Q) (f : Flash) : bool :=
  Py.ltb (flash_now f - start_time) duration.

(** ** Orders that arrive during a pass *)

Definition order_empty : Order :=
  mkOrder "#1002" "5.00" "USD" (mkCustomer "Bob") [].

Definition order_widgets : Order :=
  mkOrder "#1003" "7.00" "USD" (mkCustomer "Eve") [mkLineItem "Widgets" 1].

Definition order_long : Order :=
  mkOrder "#1000" "9.99" "USD" (mkCustomer "Bob")
    [mkLineItem "Ceramic Coffee Mug with Bamboo Lid and Stainless Steel Spoon" 1].

(** The #1001 order arrives while the third screen is being drawn: the
    scroll update of line 137 comes after the reset of line 189. *)
Definition order_during_draw : Threads.Config :=
  Threads.execute
    [Threads.DisplayRuns (tick_at 23); Threads.DisplayRuns (tick_at 23);
     Threads.OrderArrives order_1001 23;
     Threads.DisplayRuns (tick_at 23); Threads.DisplayRuns (tick_at 23)]
    (Threads.start on_screen_2).

(** The banner with the offset that pass left. *)
Definition banner_with_offset : DisplayManager :=
  Threads.session order_during_draw.

(** An order with two screens arrives between line 130 and line 135 of
    a pass on the third screen. *)
Definition order_after_len : Threads.Config :=
  Threads.execute
    [Threads.DisplayRuns (tick_at 23);
     Threads.OrderArrives order_empty 23;
     Threads.DisplayRuns (tick_at 23)]
    (Threads.start on_screen_2).

(** The same order has run lines 187 and 188 only. *)
Definition order_half_stored : DisplayManager :=
  Threads.session
    (Threads.execute [Threads.OrderStores order_empty]
       (Threads.start on_screen_2)).




(** The third screen of the long order after 34 passes. *)
Definition long_screen : DisplayManager :=
  Nat.iter 34 (after_tick (tick_at 23))
    (after_tick (tick_at 22)
       (after_tick (tick_at 13)
          (after_tick (tick_at 4)
             (set_new_order order_long 0 (init 128 64 0))))).

(** The #1001 order arrives on line 137 of a pass on that screen,
    between the read of the offset and the store; the banner is then
    left at time 27. *)
Definition order_during_store : Threads.Config :=
  Threads.execute
    [Threads.DisplayRuns (tick_at 23); Threads.DisplayRuns (tick_at 23);
     Threads.DisplayRuns (tick_at 23);
     Threads.OrderArrives order_1001 23;
     Threads.DisplayRuns (tick_at 23);
     Threads.DisplayRuns (tick_at 27)]
    (Threads.start long_screen).

Definition first_screen_with_offset : DisplayManager :=
  Threads.session order_during_store.

(** The third screen of the "Widgets" order after 29 passes. *)
Definition widgets_screen : DisplayManager :=
  Nat.iter 29 (after_tick (tick_at 23))
    (after_tick (tick_at 22)
       (after_tick (tick_at 13)
          (after_tick (tick_at 4)
             (set_new_order order_widgets 0 (init 128 64 0))))).

(** ** The invariant of passes and orders that take turns *)

Definition celebration_inv (s : DisplayManager) : Prop :=
  scroll_position s = 0 /\ 2 <= Py.len (screens s).

Definition order_info_inv (s : DisplayManager) : Prop :=
  2 <= Py.len (screens s)
  /\ 0 <= screen_index s < Py.len (screens s)
  /\ 1 <= cycles_remaining s
  /\ (screen_index s <= 1 -> scroll_position s = 0)
  /\ exists text,
       Py.getitem (screens s) (screen_index s) = Some text
       /\ 0 <= scroll_position s < scroll_limit_of s text.

Definition session_inv (s : DisplayManager) : Prop :=
  0 < width (device s)
  /\ (screens s = [] \/ 2 <= Py.len (screens s))
  /\ 0 <= cycles_remaining s <= 2
  /\ match display_state s with
     | CELEBRATION => celebration_inv s
     | ORDER_INFO => order_info_inv s
     | IDLE => True
     end.


(** The index is one of the screen list whenever a screen is shown. *)
Definition index_valid (s : DisplayManager) : Prop :=
  display_state s = ORDER_INFO -> screens s <> [] ->
  0 <= screen_index s < Py.len (screens s).

(** ** Further notions for runs *)

(** Every call of a pass that reaches the display succeeds. *)
Definition tick_ok (t : Tick) : bool :=
  draw_ok t && clear_ok t && commit_ok t.


(** ** Geometry of the animation *)

(** The point [(x, y)] is a pixel of the device. *)
Definition inside (dev : Device) (x y : Z) : Prop :=
  0 <= x <= width dev - 1 /\ 0 <= y <= height dev - 1.

(** A line between two pixels of the device that does not go up. *)
Definition line_inside (dev : Device) (op : DrawOp) : Prop :=
  match op with
  | Line x1 y1 x2 y2 _ _ => inside dev x1 y1 /\ inside dev x2 y2 /\ y1 <= y2
  | Rectangle _ _ _ _ _ _ => False
  end.

(** The lines of [bolt] form one path starting at [from]. *)
Fixpoint connected (from : Z * Z) (bolt : Frame) : Prop :=
  match bolt with
  | [] => True
  | Line x1 y1 x2 y2 _ _ :: rest => (x1, y1) = from /\ connected (x2, y2) rest
  | Rectangle _ _ _ _ _ _ :: _ => False
  end.

(** The black rectangle both canvases of a pass start with. *)
Definition black (dev : Device) : DrawOp :=
  Rectangle 0 0 (width dev) (height dev) "black" "black".



(** ** The LED: [LEDManager] *)

Inductive Level := LOW | HIGH.

(** The calls that reach the GPIO library and the clock, in order. *)
Inductive GpioEvent :=
| SetMode
| Setup (pin : Z)
| Output (pin : Z) (level : Level)
| Sleep (seconds : Q)
| Cleanup.

Record LEDManager := mkLEDManager {
  gpio_pin : Z
}.

(** [LEDManager.__init__]. *)
Definition led_init (pin : Z) (trace : list GpioEvent)
  : LEDManager * list GpioEvent :=
  (mkLEDManager pin, trace ++ [SetMode; Setup pin; Output pin LOW]).

Definition turn_on (led : LEDManager) (trace : list GpioEvent) :=
  trace ++ [Output (gpio_pin led) HIGH].

Definition turn_off (led : LEDManager) (trace : list GpioEvent) :=
  trace ++ [Output (gpio_pin led) LOW].

Definition cleanup (led : LEDManager) (trace : list GpioEvent) :=
  trace ++ [Cleanup].

(** The [for _ in range(times)] loop of [blink]; [time.sleep] raises
    [ValueError] on a negative length. *)
Fixpoint blink_loop (pin : Z) (n : nat) (on_time off_time : Q)
    (trace : list GpioEvent) : list GpioEvent * option exn :=
  match n with
  | O => (trace, None)
  | S n' =>
    let trace := trace ++ [Output pin HIGH] in
    if Py.ltb on_time 0 then (trace, Some ValueError)
    else
      let trace := trace ++ [Sleep on_time; Output pin LOW] in
      if Py.ltb off_time 0 then (trace, Some ValueError)
      else blink_loop pin n' on_time off_time (trace ++ [Sleep off_time])
  end.

(** [LEDManager.blink]. *)
Definition blink (led : LEDManager) (times : Z) (on_time off_time : Q)
    (trace : list GpioEvent) : list GpioEvent * option exn :=
  blink_loop (gpio_pin led) (Z.to_nat times) on_time off_time trace.

(** The level a pin was last driven to, [None] before any output and
    after [Cleanup]. *)
Definition level_step (pin : Z) (cur : option Level) (e : GpioEvent)
  : option Level :=
  match e with
  | Output p l => if p =? pin then Some l else cur
  | Cleanup => None
  | _ => cur
  end.

Definition level_of (pin : Z) (trace : list GpioEvent) : option Level :=
  fold_left (level_step pin) trace None.

(** The number of times a pin was driven high. *)
Definition pulses (pin : Z) (trace : list GpioEvent) : nat :=
  List.length
    (filter (fun e => match e with
                      | Output p HIGH => p =? pin
                      | _ => false
                      end) trace).

(** The time slept, in seconds. *)
Definition time_slept (trace : list GpioEvent) : Q :=
  fold_left (fun acc e => match e with Sleep d => (acc + d)%Q | _ => acc end)
    trace 0%Q.

(** ** Drawing text *)

(** [draw.textlength(line, font=self.font)]: the width of a line in
    pixels, in the font of the manager. *)
Definition Font := string -> Q.

(** A call [draw.text((x, y), line, ...)]. *)
Record TextOp := mkTextOp {
  text_x : Q;
  text_y : Z;
  text_line : string
}.

(** [text.split("\n")]. *)
Fixpoint split_nl (text : string) : list string :=
  match text with
  | EmptyString => [EmptyString]
  | String c rest =>
      if Ascii.eqb c (ascii_of_nat 10) then EmptyString :: split_nl rest
      else match split_nl rest with
           | [] => [String c EmptyString]
           | line :: lines => String c line :: lines
           end
  end.

(** The [for line in lines] loop of [_draw_multiline_centered]. *)
Fixpoint draw_lines (font : Font) (w offset : Z) (lines : list string)
    (y_cursor : Z) : list TextOp :=
  match lines with
  | [] => []
  | line :: rest =>
      let line_width := font line in
      (if Py.ltb (inject_Z w) line_width
       then mkTextOp (inject_Z (w - offset)) y_cursor line
       else mkTextOp (inject_Z (Qfloor ((inject_Z w - line_width) / 2)))
              y_cursor line)
      :: draw_lines font w offset rest (y_cursor + 14)
  end.

(** [DisplayManager._draw_multiline_centered]. *)
Definition _draw_multiline_centered (dev : Device) (font : Font)
    (text : string) (offset : Z) : list TextOp :=
  draw_lines font (width dev) offset (split_nl text) 0.

(** [DisplayManager._show_celebration_screen]: the frame and the
    message. *)
Definition _show_celebration_screen (dev : Device) (font : Font)
  : DrawOp * TextOp :=
  let message := "New Order!" in
  let msg_width := font message in
  let msg_x := Qfloor ((inject_Z (width dev) - msg_width) / 2) in
  let msg_y := (height dev - 12) / 2 in
  (Rectangle 0 0 (width dev - 1) (height dev - 1) "white" "black",
   mkTextOp (inject_Z msg_x) msg_y message).

(** Where a line is put: one that fits is centred, inside the device
    and to the pixel; a wider one starts [offset] pixels left of the
    right edge. *)
Definition placed (dev : Device) (font : Font) (offset : Z) (op : TextOp)
  : Prop :=
  ((font (text_line op) <= inject_Z (width dev))%Q ->
     (0 <= text_x op)%Q
     /\ (text_x op + font (text_line op) <= inject_Z (width dev))%Q
     /\ (inject_Z (width dev) - font (text_line op) - 2 * text_x op < 2)%Q)
  /\ ((inject_Z (width dev) < font (text_line op))%Q ->
        text_x op = inject_Z (width dev - offset)).

(** The text has no line break. *)
Fixpoint no_nl (text : string) : bool :=
  match text with
  | EmptyString => true
  | String c rest => negb (Ascii.eqb c (ascii_of_nat 10)) && no_nl rest
  end.

(** No field of the order has a line break. *)
Definition order_no_nl (o : Order) : bool :=
  no_nl (name o) && no_nl (total_price o) && no_nl (currency o)
  && no_nl (first_name (customer o))
  && forallb (fun item => no_nl (item_name item)) (line_items o).

(** ** The payload as it arrives: [request.json] *)

Local Unset Elimination Schemes.

(** A parsed JSON value; the fields of an object hold each key once. *)
Inductive Json :=
| JNull
| JBool (b : bool)
| JInt (n : Z)
| JFloat (q : Q)
| JStr (s : string)
| JList (items : list Json)
| JObj (fields : list (string * Json)).

Local Set Elimination Schemes.

Inductive PyError := KeyError (key : string) | TypeError.

(** The result of an evaluation: a value, an exception, or a value
    this embedding does not compute (arithmetic on [float], the text of
    a [float], list or dict inside an f-string). *)
Inductive Outcome (A : Type) :=
| Done (a : A)
| Raises (e : PyError)
| NotModelled.

Arguments Done {A} a.
Arguments Raises {A} e.
Arguments NotModelled {A}.

Definition bind {A B : Type} (m : Outcome A) (k : A -> Outcome B) : Outcome B :=
  match m with
  | Done a => k a
  | Raises e => Raises e
  | NotModelled => NotModelled
  end.

Notation "x <- m ;; k" := (bind m (fun x => k))
  (at level 61, m at next level, right associativity).

Fixpoint lookup (key : string) (fields : list (string * Json)) : option Json :=
  match fields with
  | [] => None
  | (k, v) :: rest => if String.eqb k key then Some v else lookup key rest
  end.

(** [v[key]] for a [str] key. *)
Definition subscript (v : Json) (key : string) : Outcome Json :=
  match v with
  | JObj fields =>
      match lookup key fields with
      | Some x => Done x
      | None => Raises (KeyError key)
      end
  | _ => Raises TypeError
  end.

(** The values [for item in v] runs through. *)
Definition iterate (v : Json) : Outcome (list Json) :=
  match v with
  | JList items => Done items
  | JStr s => Done (map (fun c => JStr (String c EmptyString))
                        (list_ascii_of_string s))
  | JObj fields => Done (map (fun kv => JStr (fst kv)) fields)
  | _ => Raises TypeError
  end.

(** [acc + v] inside [sum], [acc] an [int]. *)
Definition add_quantity (acc : Z) (v : Json) : Outcome Z :=
  match v with
  | JInt n => Done (acc + n)
  | JBool b => Done (acc + if b then 1 else 0)
  | JFloat _ => NotModelled
  | _ => Raises TypeError
  end.

(** The text of [{v}] in an f-string. *)
Definition format_value (v : Json) : Outcome string :=
  match v with
  | JStr s => Done s
  | JInt n => Done (Py.str_int n)
  | JBool true => Done "True"
  | JBool false => Done "False"
  | JNull => Done "None"
  | _ => NotModelled
  end.

(** [sum(item['quantity'] for item in items)] from [acc]. *)
Fixpoint sum_quantities (items : list Json) (acc : Z) : Outcome Z :=
  match items with
  | [] => Done acc
  | item :: rest =>
      q <- subscript item "quantity" ;;
      acc' <- add_quantity acc q ;;
      sum_quantities rest acc'
  end.

(** [[f"Product:\n{item['name']}" for item in items]]. *)
Fixpoint product_entries (items : list Json) : Outcome (list string) :=
  match items with
  | [] => Done []
  | item :: rest =>
      v <- subscript item "name" ;;
      n <- format_value v ;;
      entries <- product_entries rest ;;
      Done (("Product:" ++ Py.nl ++ n)%string :: entries)
  end.

(** [_create_order_screens] on the payload as it arrives. *)
Definition create_order_screens_raw (data : Json) : Outcome (list string) :=
  li <- subscript data "line_items" ;;
  items <- iterate li ;;
  total_items <- sum_quantities items 0 ;;
  v <- subscript data "name" ;;
  name <- format_value v ;;
  v <- subscript data "total_price" ;;
  total_price <- format_value v ;;
  v <- subscript data "currency" ;;
  currency <- format_value v ;;
  c <- subscript data "customer" ;;
  v <- subscript c "first_name" ;;
  first_name <- format_value v ;;
  li <- subscript data "line_items" ;;
  items <- iterate li ;;
  products <- product_entries items ;;
  let screen_data :=
    [ ("Order " ++ name)%string;
      ("Total: " ++ total_price ++ " " ++ currency)%string;
      ("Items: " ++ Py.str_int total_items)%string;
      ("Customer:" ++ Py.nl ++ first_name)%string ]
    ++ products in
  Done (group_finish (fold_left group_step screen_data ([], []))).

(** The JSON object of a line item and of an order. *)
Definition item_fields (item : LineItem) : list (string * Json) :=
  [("name", JStr (item_name item)); ("quantity", JInt (quantity item))].

Definition order_fields (o : Order) : list (string * Json) :=
  [ ("name", JStr (name o));
    ("total_price", JStr (total_price o));
    ("currency", JStr (currency o));
    ("customer", JObj [("first_name", JStr (first_name (customer o)))]);
    ("line_items", JList (map (fun item => JObj (item_fields item))
                              (line_items o))) ].

(** The fields without the key [key]. *)
Definition remove_key (key : string) (fields : list (string * Json))
  : list (string * Json) :=
  filter (fun kv => negb (String.eqb (fst kv) key)) fields.

(** The value [v] is an object that holds the name and the quantity of
    [item], among other keys. *)
Definition item_encodes (item : LineItem) (v : Json) : Prop :=
  exists fields,
    v = JObj fields
    /\ lookup "name" fields = Some (JStr (item_name item))
    /\ lookup "quantity" fields = Some (JInt (quantity item)).

(** The payload [data] is an object that holds the order [o], among
    other keys. *)
Definition encodes (o : Order) (data : Json) : Prop :=
  exists fields cfields items,
    data = JObj fields
    /\ lookup "name" fields = Some (JStr (name o))
    /\ lookup "total_price" fields = Some (JStr (total_price o))
    /\ lookup "currency" fields = Some (JStr (currency o))
    /\ lookup "customer" fields = Some (JObj cfields)
    /\ lookup "first_name" cfields = Some (JStr (first_name (customer o)))
    /\ lookup "line_items" fields = Some (JList items)
    /\ Forall2 item_encodes (line_items o) items.

(** * Properties *)

(** ** Python helpers *)

Lemma ltb_true (a b : Q) : Py.ltb a b = true <-> (a < b)%Q.
Proof.
  unfold Py.ltb. rewrite negb_true_iff. split; intro H.
  - apply Qnot_le_lt. intro Hle. apply Qle_bool_iff in Hle. congruence.
  - destruct (Qle_bool b a) eqn:E; [|reflexivity].
    apply Qle_bool_iff in E. exfalso. exact (Qlt_not_le _ _ H E).
Qed.

Lemma ltb_false (a b : Q) : Py.ltb a b = false <-> ~ (a < b)%Q.
Proof.
  rewrite <- ltb_true. destruct (Py.ltb a b); split; intro H; congruence.
Qed.

Lemma getitem_in_range {A : Type} (l : list A) (i : Z) :
  0 <= i < Py.len l -> exists x, Py.getitem l i = Some x.
Proof.
  intros [H0 H1]. unfold Py.getitem.
  rewrite (proj2 (Z.leb_le 0 i) H0), (proj2 (Z.ltb_lt i _) H1). simpl.
  destruct (nth_error l (Z.to_nat i)) eqn:E; [eauto|].
  apply nth_error_None in E. unfold Py.len in H1. lia.
Qed.

Lemma getitem_some_nonempty {A : Type} (l : list A) (i : Z) (x : A) :
  Py.getitem l i = Some x -> l <> [].
Proof.
  intros H ->. unfold Py.getitem, Py.len in H. simpl in H.
  destruct (0 <=? i) eqn:E0, (i <? 0) eqn:E1; simpl in H;
    try discriminate; destruct (Z.to_nat i); discriminate.
Qed.

Lemma sum_fold_right (l : list Z) : Py.sum l = fold_right Z.add 0 l.
Proof.
  unfold Py.sum. apply fold_symmetric; intros; lia.
Qed.

(** ** The screen builder *)

Lemma group_loop_paginate (entries : list string) :
  forall done : list string,
    group_finish (fold_left group_step entries (done, []))
    = done ++ paginate entries
    /\ forall e : string,
         group_finish (fold_left group_step entries (done, [e]))
         = done ++ paginate (e :: entries).
Proof.
  induction entries as [|a rest IH]; intro done.
  - split; [|intro e]; simpl; [now rewrite app_nil_r | reflexivity].
  - split; [|intro e]; simpl.
    + apply (IH done).
    + destruct (IH (done ++ [(e ++ Py.nl ++ a)%string])) as [E _].
      rewrite <- app_assoc in E. exact E.
Qed.

Lemma create_order_screens_paginate (o : Order) :
  _create_order_screens o = paginate (screen_data o).
Proof.
  unfold _create_order_screens.
  now destruct (group_loop_paginate (screen_data o) []) as [-> _].
Qed.

Lemma screen_data_reference (o : Order) : screen_data o = reference_entries o.
Proof.
  unfold screen_data, reference_entries. now rewrite sum_fold_right.
Qed.

Lemma paginate_length (entries : list string) :
  (List.length entries <= 2 * List.length (paginate entries)
   <= List.length entries + 1)%nat.
Proof.
  enough (H : forall l : list string,
             (List.length l <= 2 * List.length (paginate l)
              <= List.length l + 1)%nat
             /\ forall e,
                 (List.length (e :: l) <= 2 * List.length (paginate (e :: l))
                  <= List.length (e :: l) + 1)%nat)
    by apply H.
  induction l as [|a l [IH1 IH2]].
  - split; [|intro e]; simpl; lia.
  - split; [apply IH2|]. intro e.
    change (paginate (e :: a :: l)) with ((e ++ Py.nl ++ a)%string :: paginate l).
    simpl List.length in *. lia.
Qed.

Lemma screen_data_length (o : Order) :
  List.length (screen_data o) = (4 + List.length (line_items o))%nat.
Proof.
  unfold screen_data. rewrite length_app, length_map. reflexivity.
Qed.

Lemma create_order_screens_length (o : Order) :
  List.length (_create_order_screens o)
  = ((4 + List.length (line_items o) + 1) / 2)%nat.
Proof.
  rewrite create_order_screens_paginate.
  pose proof (paginate_length (screen_data o)) as H.
  rewrite screen_data_length in H.
  apply Nat.div_unique with
    (r := (4 + List.length (line_items o) + 1
           - 2 * List.length (paginate (screen_data o)))%nat); lia.
Qed.

Lemma create_order_screens_two (o : Order) :
  2 <= Py.len (_create_order_screens o).
Proof.
  unfold Py.len. rewrite create_order_screens_paginate.
  pose proof (paginate_length (screen_data o)) as H.
  rewrite screen_data_length in H. lia.
Qed.

(** C1: [_create_order_screens] equals the reference definition (the
    entry list of the specification, paginated two entries at a time
    with a trailing single entry as the last screen); for [L] line
    items it gives [ceil((4+L)/2)] screens, 2 when [L = 0]; the #1001
    order gives the three screens of the scenario. *)
Theorem C1_build_matches_reference :
  (forall o : Order,
     _create_order_screens o = paginate (reference_entries o)
     /\ List.length (reference_entries o) = (4 + List.length (line_items o))%nat
     /\ List.length (_create_order_screens o)
        = ((4 + List.length (line_items o) + 1) / 2)%nat
     /\ (4 + List.length (line_items o)
         <= 2 * List.length (_create_order_screens o)
         < 4 + List.length (line_items o) + 2)%nat)
  /\ (forall (n p c : string) (cu : Customer),
        List.length (_create_order_screens (mkOrder n p c cu [])) = 2%nat)
  /\ _create_order_screens order_1001
     = [ ("Order #1001" ++ Py.nl ++ "Total: 42.50 USD")%string;
         ("Items: 2" ++ Py.nl ++ "Customer:" ++ Py.nl ++ "Alice")%string;
         ("Product:" ++ Py.nl ++ "Widget")%string ].
Proof.
  split; [|split].
  - intro o. split; [|split; [|split]].
    + now rewrite create_order_screens_paginate, screen_data_reference.
    + rewrite <- screen_data_reference. apply screen_data_length.
    + apply create_order_screens_length.
    + rewrite create_order_screens_paginate.
      pose proof (paginate_length (screen_data o)) as H.
      rewrite screen_data_length in H. lia.
  - intros. reflexivity.
  - reflexivity.
Qed.

(** ** One pass of the loop *)

Lemma after_tick_body (t : Tick) (s : DisplayManager) :
  after_tick t s = fst (loop_body t s).
Proof.
  unfold after_tick, loop_iteration.
  destruct (loop_body t s) as [s' [e|]]; [reflexivity|].
  now destruct (commit_ok t).
Qed.

Lemma scrolled_position_eq (s : DisplayManager) (text : string) :
  scroll_position (scrolled s text) = scrolled_position s text.
Proof.
  unfold scrolled, scrolled_position. now destruct (screen_index s >? 1).
Qed.

Lemma order_info_pass_no_draw (t : Tick) (s : DisplayManager) :
  draw_ok t = false -> fst (order_info_pass t s) = s.
Proof.
  intro H. unfold order_info_pass.
  destruct (screens s); [reflexivity|].
  destruct (Py.getitem _ _); [|reflexivity].
  now rewrite H.
Qed.

(** The pass in [ORDER_INFO] on the screen [text], when drawing works. *)
Lemma order_info_pass_eq (t : Tick) (s : DisplayManager) (text : string) :
  Py.getitem (screens s) (screen_index s) = Some text ->
  draw_ok t = true ->
  screen_index s <= 1 \/ scroll_limit_of s text <> 0 ->
  order_info_pass t s
  = (if Py.ltb SCREEN_TIMEOUT (now_check t - state_start_time s)
        || width_disjunct s text (scrolled_position s text)
     then advance_screen t (scrolled s text)
     else scrolled s text, None).
Proof.
  intros Hget Hdraw Hlim. unfold order_info_pass.
  pose proof (getitem_some_nonempty _ _ _ Hget) as Hne.
  destruct (screens s) as [|x l] eqn:Es; [congruence|].
  rewrite <- Es in Hget |- *. rewrite Hget, Hdraw. cbn [negb].
  fold (scroll_limit_of s text).
  assert (Hz : (screen_index s >? 1) && (scroll_limit_of s text =? 0) = false).
  { destruct Hlim as [H|H].
    - replace (screen_index s >? 1) with false; [reflexivity|].
      symmetry. rewrite Z.gtb_ltb. apply Z.ltb_ge. exact H.
    - apply Z.eqb_neq in H. rewrite H. apply andb_false_r. }
  rewrite Hz. unfold width_disjunct, scrolled_position, scrolled.
  destruct (screen_index s >? 1); cbn [scroll_position state_start_time
    set_scroll_position]; now destruct (_ || _).
Qed.

(** ** The invariant is kept when passes and orders take turns *)

Lemma scroll_limit_pos (s : DisplayManager) (text : string) :
  0 < width (device s) -> 0 < scroll_limit_of s text.
Proof. unfold scroll_limit_of, SCROLL_PADDING. lia. Qed.

Lemma init_inv (w h : Z) (now : Q) : 0 < w -> session_inv (init w h now).
Proof.
  intro H. unfold session_inv, init. simpl. repeat split; auto; lia.
Qed.

Lemma set_new_order_inv (o : Order) (now : Q) (s : DisplayManager) :
  session_inv s -> session_inv (set_new_order o now s).
Proof.
  intros (Hw & _ & Hc & _). unfold session_inv, celebration_inv. simpl.
  pose proof (create_order_screens_two o). repeat split; auto; lia.
Qed.

Lemma stop_inv (s : DisplayManager) : session_inv s -> session_inv (stop s).
Proof. intro H. exact H. Qed.

Lemma celebration_pass_inv (t : Tick) (s : DisplayManager) :
  display_state s = CELEBRATION ->
  session_inv s -> session_inv (fst (celebration_pass t s)).
Proof.
  intros E Hinv. unfold celebration_pass.
  destruct (draw_ok t); [|exact Hinv]. cbn [negb].
  destruct (Py.ltb _ _); [|exact Hinv].
  destruct Hinv as (Hw & Hs & Hc & Hst). rewrite E in Hst.
  destruct Hst as [Hscroll Hlen].
  unfold session_inv, order_info_inv. simpl.
  destruct (getitem_in_range (screens s) 0) as [text Ht]; [lia|].
  pose proof (scroll_limit_pos s text Hw) as Hpos.
  unfold ORDER_CYCLES. repeat split; auto; try lia.
  exists text. split; [exact Ht|]. unfold scroll_limit_of in *. simpl. lia.
Qed.

Lemma scrolled_inv (s : DisplayManager) (text : string) :
  display_state s = ORDER_INFO ->
  Py.getitem (screens s) (screen_index s) = Some text ->
  session_inv s -> session_inv (scrolled s text).
Proof.
  intros E Hget Hinv. unfold scrolled.
  destruct (screen_index s >? 1) eqn:Ei; [|exact Hinv].
  destruct Hinv as (Hw & Hs & Hc & Hst). rewrite E in Hst.
  destruct Hst as (Hlen & Hidx & Hcyc & Hlow & _).
  unfold session_inv, order_info_inv. simpl. rewrite E.
  rewrite Z.gtb_ltb in Ei. apply Z.ltb_lt in Ei.
  repeat split; auto; try lia.
  exists text. split; [exact Hget|].
  apply Z.mod_pos_bound. fold (scroll_limit_of s text).
  now apply scroll_limit_pos.
Qed.

Lemma advance_screen_inv (t : Tick) (s : DisplayManager) :
  display_state s = ORDER_INFO ->
  session_inv s -> session_inv (advance_screen t s).
Proof.
  intros E (Hw & Hs & Hc & Hst). rewrite E in Hst.
  destruct Hst as (Hlen & Hidx & Hcyc & _ & _).
  unfold advance_screen. cbn [screen_index screens cycles_remaining
    set_screen_index set_scroll_position set_state_start_time
    set_cycles_remaining].
  destruct (screen_index s + 1 >=? Py.len (screens s)) eqn:Ew.
  - destruct (cycles_remaining s - 1 <=? 0) eqn:Ec.
    + apply Z.leb_le in Ec. unfold session_inv. simpl.
      repeat split; auto; lia.
    + apply Z.leb_gt in Ec. unfold session_inv, order_info_inv. simpl.
      rewrite E.
      destruct (getitem_in_range (screens s) 0) as [text Ht]; [lia|].
      pose proof (scroll_limit_pos s text Hw) as Hpos.
      repeat split; auto; try lia.
      exists text. split; [exact Ht|]. unfold scroll_limit_of in *. simpl. lia.
  - rewrite Z.geb_leb in Ew. apply Z.leb_gt in Ew.
    unfold session_inv, order_info_inv. simpl. rewrite E.
    destruct (getitem_in_range (screens s) (screen_index s + 1))
      as [text Ht]; [lia|].
    pose proof (scroll_limit_pos s text Hw) as Hpos.
    repeat split; auto; try lia.
    exists text. split; [exact Ht|]. unfold scroll_limit_of in *. simpl. lia.
Qed.

Lemma scrolled_frame (s : DisplayManager) (text : string) :
  display_state (scrolled s text) = display_state s
  /\ screens (scrolled s text) = screens s
  /\ screen_index (scrolled s text) = screen_index s
  /\ cycles_remaining (scrolled s text) = cycles_remaining s
  /\ state_start_time (scrolled s text) = state_start_time s
  /\ device (scrolled s text) = device s.
Proof. unfold scrolled. destruct (screen_index s >? 1); now repeat split. Qed.

Lemma order_info_pass_inv (t : Tick) (s : DisplayManager) :
  display_state s = ORDER_INFO ->
  session_inv s -> session_inv (fst (order_info_pass t s)).
Proof.
  intros E Hinv.
  destruct (draw_ok t) eqn:Ed; [|now rewrite order_info_pass_no_draw].
  pose proof Hinv as (Hw & _ & _ & Hst). rewrite E in Hst.
  destruct Hst as (_ & _ & _ & _ & text & Hget & _).
  rewrite (order_info_pass_eq t s text Hget Ed).
  - pose proof (scrolled_inv s text E Hget Hinv) as Hsc.
    destruct (_ || _); cbn [fst]; [|exact Hsc].
    apply advance_screen_inv; [|exact Hsc].
    now destruct (scrolled_frame s text) as [-> _].
  - right. pose proof (scroll_limit_pos s text Hw). lia.
Qed.

Lemma after_tick_inv (t : Tick) (s : DisplayManager) :
  session_inv s -> session_inv (after_tick t s).
Proof.
  intro Hinv. rewrite after_tick_body. unfold loop_body.
  destruct (display_state s) eqn:E.
  - now apply celebration_pass_inv.
  - now apply order_info_pass_inv.
  - unfold idle_pass. now destruct (clear_ok t).
Qed.

Lemma iter_inv (t : Tick) (n : nat) (s : DisplayManager) :
  session_inv s -> session_inv (Nat.iter n (after_tick t) s).
Proof.
  intro Hinv. induction n as [|n IH]; [exact Hinv|].
  simpl. now apply after_tick_inv.
Qed.

(** ** Passes and orders that take turns *)

Lemma run_execute (actions : list Threads.Action) :
  forall c : Threads.Config,
    Threads.run c -> Threads.run (Threads.execute actions c).
Proof.
  unfold Threads.execute.
  induction actions as [|a rest IH]; intros c Hc; simpl; [exact Hc|].
  apply IH. now apply Threads.run_act.
Qed.

Lemma run_reachable (c : Threads.Config) :
  Threads.run c -> reachable (Threads.session c).
Proof. intro Hc. now exists c. Qed.

Lemma between_passes_reachable (s : DisplayManager) :
  between_passes s -> reachable s.
Proof. intro H. now exists (Threads.start s). Qed.

Lemma step_on_config (t : Tick) (s : DisplayManager) (p : Threads.Pc)
    (e : option exn) :
  Threads.step_on t (Threads.mkConfig s p e)
  = match p with
    | Threads.Top => Threads.mkConfig s p e
    | _ => Threads.display_step t (Threads.mkConfig s p e)
    end.
Proof. reflexivity. Qed.

Lemma step_on_settled (t : Tick) (s : DisplayManager) (e : option exn) :
  Threads.step_on t (Threads.mkConfig s Threads.Top e)
  = Threads.mkConfig s Threads.Top e.
Proof. reflexivity. Qed.

Lemma leave_canvas_settled (t : Tick) (s : DisplayManager) :
  Threads.step_on t (Threads.leave_canvas t s) = Threads.leave_canvas t s.
Proof. unfold Threads.leave_canvas. now destruct (commit_ok t). Qed.

Lemma leave_canvas_commit (t : Tick) (s : DisplayManager) :
  Threads.leave_canvas t s
  = Threads.mkConfig s Threads.Top
      (if commit_ok t then None else Some DisplayError).
Proof. unfold Threads.leave_canvas, Threads.crash. now destruct (commit_ok t). Qed.

Lemma run_step_on (t : Tick) (c : Threads.Config) :
  Threads.run c -> Threads.run (Threads.step_on t c).
Proof.
  intro Hc. unfold Threads.step_on.
  destruct (Threads.pc c); try exact Hc;
    exact (Threads.run_act c (Threads.DisplayRuns t) Hc).
Qed.

(** A pass the other thread does not interrupt is a pass of
    [loop_iteration]. *)
Lemma whole_pass_loop_iteration (t : Tick) (s : DisplayManager) :
  running s = true ->
  Threads.whole_pass t s
  = Threads.mkConfig (fst (loop_iteration t s)) Threads.Top
      (snd (loop_iteration t s)).
Proof.
  intro Hrun.
  unfold Threads.whole_pass, Threads.start, Threads.display_step.
  cbn [Threads.session Threads.pc Threads.crashed]. rewrite Hrun.
  destruct (display_state s) eqn:E; try (now rewrite !step_on_settled).
  unfold loop_iteration, loop_body. rewrite E. unfold order_info_pass.
  destruct (screens s) as [|x l] eqn:Es.
  { rewrite !leave_canvas_settled, leave_canvas_commit.
    now destruct (commit_ok t). }
  rewrite <- Es.
  destruct (Py.getitem (screens s) (screen_index s)) as [text|] eqn:Hget;
    [|unfold Threads.crash; now rewrite !step_on_settled].
  rewrite step_on_config. unfold Threads.display_step.
  cbn [Threads.session Threads.pc Threads.crashed]. rewrite Hget.
  destruct (draw_ok t); cbn [negb];
    [|unfold Threads.crash; now rewrite !step_on_settled].
  rewrite step_on_config. unfold Threads.display_step.
  cbn [Threads.session Threads.pc Threads.crashed].
  destruct (screen_index s >? 1); cbn [andb].
  - destruct (_ =? 0);
      [unfold Threads.crash; now rewrite !step_on_settled|].
    rewrite step_on_config. unfold Threads.display_step.
    cbn [Threads.session Threads.pc Threads.crashed].
    unfold Threads.check_advance.
    destruct (_ || _).
    + rewrite step_on_config. unfold Threads.display_step.
      cbn [Threads.session Threads.pc Threads.crashed].
      rewrite leave_canvas_commit. now destruct (commit_ok t).
    + rewrite leave_canvas_settled, leave_canvas_commit.
      now destruct (commit_ok t).
  - unfold Threads.check_advance.
    destruct (_ || _).
    + rewrite step_on_config. unfold Threads.display_step.
      cbn [Threads.session Threads.pc Threads.crashed].
      rewrite !leave_canvas_settled, leave_canvas_commit.
      now destruct (commit_ok t).
    + rewrite !leave_canvas_settled, leave_canvas_commit.
      now destruct (commit_ok t).
Qed.

Lemma between_passes_init (w h : Z) (now : Q) :
  0 < w -> 0 < h -> between_passes (init w h now).
Proof. intros Hw Hh. now apply Threads.run_start. Qed.

Lemma between_passes_order (order : Order) (now : Q) (s : DisplayManager) :
  between_passes s -> between_passes (set_new_order order now s).
Proof.
  intro H. exact (Threads.run_act _ (Threads.OrderArrives order now) H).
Qed.

(** A pass that runs to its end without the other thread, and
    without an exception, is a step of the two threads. *)
Lemma between_passes_tick (t : Tick) (s : DisplayManager) :
  between_passes s ->
  running s = true ->
  snd (loop_iteration t s) = None ->
  between_passes (after_tick t s).
Proof.
  intros H Hrun Hnone. unfold between_passes, after_tick, Threads.start.
  rewrite <- Hnone, <- (whole_pass_loop_iteration t s Hrun).
  unfold Threads.whole_pass. do 4 apply run_step_on.
  exact (Threads.run_act _ (Threads.DisplayRuns t) H).
Qed.

(** ** What a pass does in each state *)

Lemma celebration_tick (t : Tick) (s : DisplayManager) :
  display_state s = CELEBRATION ->
  after_tick t s
  = if draw_ok t && Py.ltb CELEBRATION_DURATION (now_check t - state_start_time s)
    then set_cycles_remaining ORDER_CYCLES
           (set_screen_index 0
              (set_state_start_time (now_enter t)
                 (set_display_state ORDER_INFO s)))
    else s.
Proof.
  intro E. rewrite after_tick_body. unfold loop_body, celebration_pass.
  rewrite E. destruct (draw_ok t); [|reflexivity]. cbn [negb andb].
  now destruct (Py.ltb _ _).
Qed.

Lemma idle_tick (t : Tick) (s : DisplayManager) :
  display_state s = IDLE -> after_tick t s = s.
Proof.
  intro E. rewrite after_tick_body. unfold loop_body, idle_pass.
  rewrite E. now destruct (clear_ok t).
Qed.

Lemma width_disjunct_false (s : DisplayManager) (text : string) :
  session_inv s -> display_state s = ORDER_INFO ->
  Py.getitem (screens s) (screen_index s) = Some text ->
  0 <= scrolled_position s text < scroll_limit_of s text
  /\ width_disjunct s text (scrolled_position s text) = false.
Proof.
  intros Hinv E Hget.
  pose proof (scrolled_inv s text E Hget Hinv) as (_ & _ & _ & Hst).
  destruct (scrolled_frame s text) as (Ed & Es & Ei & _ & _ & Edev).
  rewrite Ed, E in Hst. destruct Hst as (_ & _ & _ & _ & text' & Hget' & Hb).
  rewrite Es, Ei, Hget in Hget'. injection Hget' as <-.
  rewrite scrolled_position_eq in Hb.
  unfold scroll_limit_of in Hb. rewrite Edev in Hb.
  fold (scroll_limit_of s text) in Hb. split; [exact Hb|].
  unfold width_disjunct. rewrite Z.geb_leb. apply Z.leb_gt. lia.
Qed.

Lemma order_info_tick (t : Tick) (s : DisplayManager) :
  session_inv s -> display_state s = ORDER_INFO ->
  exists text,
    Py.getitem (screens s) (screen_index s) = Some text
    /\ after_tick t s
       = if draw_ok t
         then if Py.ltb SCREEN_TIMEOUT (now_check t - state_start_time s)
              then advance_screen t (scrolled s text)
              else scrolled s text
         else s.
Proof.
  intros Hinv E.
  pose proof Hinv as (Hw & _ & _ & Hst). rewrite E in Hst.
  destruct Hst as (_ & _ & _ & _ & text & Hget & _).
  exists text. split; [exact Hget|].
  rewrite after_tick_body. unfold loop_body. rewrite E.
  destruct (draw_ok t) eqn:Ed; [|now apply order_info_pass_no_draw].
  rewrite (order_info_pass_eq t s text Hget Ed).
  - destruct (width_disjunct_false s text Hinv E Hget) as [_ ->].
    rewrite orb_false_r. now destruct (Py.ltb _ _).
  - right. pose proof (scroll_limit_pos s text Hw). lia.
Qed.

(** The attributes after [advance_screen]. *)
Lemma advance_screen_effect (t : Tick) (s : DisplayManager) :
  let s' := advance_screen t s in
  screens s' = screens s /\ device s' = device s /\ scroll_position s' = 0
  /\ ((screen_index s + 1 < Py.len (screens s)
       /\ screen_index s' = screen_index s + 1
       /\ cycles_remaining s' = cycles_remaining s
       /\ display_state s' = display_state s
       /\ state_start_time s' = now_enter t)
      \/ (Py.len (screens s) <= screen_index s + 1
          /\ screen_index s' = 0
          /\ cycles_remaining s' = cycles_remaining s - 1
          /\ ((cycles_remaining s - 1 <= 0
               /\ display_state s' = IDLE
               /\ state_start_time s' = now_idle t)
              \/ (0 < cycles_remaining s - 1
                  /\ display_state s' = display_state s
                  /\ state_start_time s' = now_enter t)))).
Proof.
  unfold advance_screen. cbn [screen_index screens cycles_remaining
    set_screen_index set_scroll_position set_state_start_time
    set_cycles_remaining].
  destruct (screen_index s + 1 >=? Py.len (screens s)) eqn:Ew;
    rewrite Z.geb_leb in Ew.
  - apply Z.leb_le in Ew.
    destruct (cycles_remaining s - 1 <=? 0) eqn:Ec.
    + apply Z.leb_le in Ec. simpl. repeat split. right. repeat split; auto.
    + apply Z.leb_gt in Ec. simpl. repeat split. right. repeat split; auto.
  - apply Z.leb_gt in Ew. simpl. repeat split. left. repeat split; auto.
Qed.

(** ** The sample runs are runs of the two threads *)

(** Proves [between_passes] of a state written as passes and orders
    from [init]. *)
Ltac take_turns :=
  repeat match goal with
  | |- between_passes (init _ _ _) => apply between_passes_init; lia
  | |- between_passes (set_new_order _ _ _) => apply between_passes_order
  | |- between_passes (after_tick _ _) =>
      apply between_passes_tick;
        [| vm_compute; reflexivity | vm_compute; reflexivity]
  end.


Lemma on_screen_2_between : between_passes on_screen_2.
Proof.
  unfold on_screen_2, on_screen_1, on_screen_0, after_order. take_turns.
Qed.


Lemma on_screen_0_reachable : reachable on_screen_0.
Proof.
  apply between_passes_reachable.
  unfold on_screen_0, after_order. take_turns.
Qed.


Lemma on_screen_2_reachable : reachable on_screen_2.
Proof. exact (between_passes_reachable _ on_screen_2_between). Qed.

Lemma scrolling_screen_2_reachable : reachable scrolling_screen_2.
Proof.
  apply between_passes_reachable.
  unfold scrolling_screen_2, on_screen_2, on_screen_1, on_screen_0, after_order.
  unfold Nat.iter; cbn [nat_rect]. take_turns.
Qed.


Lemma long_screen_between : between_passes long_screen.
Proof. unfold long_screen. unfold Nat.iter; cbn [nat_rect]. take_turns. Qed.

Lemma widgets_screen_between : between_passes widgets_screen.
Proof. unfold widgets_screen. unfold Nat.iter; cbn [nat_rect]. take_turns. Qed.

Lemma after_order_inv : session_inv after_order.
Proof. apply set_new_order_inv, init_inv. lia. Qed.

Lemma on_screen_1_inv : session_inv on_screen_1.
Proof. do 2 apply after_tick_inv. exact after_order_inv. Qed.

Lemma on_screen_2_inv : session_inv on_screen_2.
Proof. apply after_tick_inv. exact on_screen_1_inv. Qed.

Lemma scrolling_screen_2_inv : session_inv scrolling_screen_2.
Proof. apply iter_inv. exact on_screen_2_inv. Qed.

(** ** The orders that arrive during a pass *)

Lemma order_during_draw_run : Threads.run order_during_draw.
Proof. apply run_execute. exact on_screen_2_between. Qed.

Lemma banner_with_offset_between : between_passes banner_with_offset.
Proof.
  unfold between_passes.
  assert (E : Threads.start banner_with_offset = order_during_draw)
    by (vm_compute; reflexivity).
  rewrite E. exact order_during_draw_run.
Qed.

Lemma order_after_len_run : Threads.run order_after_len.
Proof. apply run_execute. exact on_screen_2_between. Qed.

Lemma order_half_stored_reachable : reachable order_half_stored.
Proof. apply run_reachable, run_execute. exact on_screen_2_between. Qed.


Lemma order_during_store_run : Threads.run order_during_store.
Proof. apply run_execute. exact long_screen_between. Qed.

Lemma first_screen_with_offset_between :
  between_passes first_screen_with_offset.
Proof.
  unfold between_passes.
  assert (E : Threads.start first_screen_with_offset = order_during_store)
    by (vm_compute; reflexivity).
  rewrite E. exact order_during_store_run.
Qed.

Lemma scrolling_screen_2_screens : screens scrolling_screen_2 <> [].
Proof. vm_compute. discriminate. Qed.

(** ** The order event *)



(** ** Leaving the banner *)




(** ** Cycles and the way to [IDLE] *)








(** ** The scroll offset *)

Lemma advance_changes_index (t : Tick) (s : DisplayManager) :
  2 <= Py.len (screens s) -> 0 <= screen_index s < Py.len (screens s) ->
  screen_index (advance_screen t s) <> screen_index s.
Proof.
  intros Hlen Hidx.
  destruct (advance_screen_effect t s)
    as (_ & _ & _ & [(_ & Hi & _) | (Hge & Hi & _)]); rewrite Hi; lia.
Qed.

(** C5, as the code has it: in a session that satisfies the invariant
    (kept by every pass and every order that do not overlap) the
    offset of a shown screen lies in [[0, scroll_limit)] of that screen;
    it is 0 after every pass that changes [screen_index] and after
    every order; a pass that keeps [screen_index] keeps the offset or
    steps it by 10 modulo the limit, which brings it back to 0 when it
    reaches the limit. *)
Theorem C5_scroll_offset_bounds :
  forall s : DisplayManager,
    session_inv s ->
    (display_state s = ORDER_INFO -> screens s <> [] ->
       exists text,
         Py.getitem (screens s) (screen_index s) = Some text
         /\ 0 <= scroll_position s < scroll_limit_of s text)
    /\ (forall t : Tick,
          screen_index (after_tick t s) <> screen_index s ->
          scroll_position (after_tick t s) = 0)
    /\ (forall (order : Order) (now : Q),
          scroll_position (set_new_order order now s) = 0)
    /\ (forall t : Tick,
          screen_index (after_tick t s) = screen_index s ->
          scroll_position (after_tick t s) = scroll_position s
          \/ (display_state s = ORDER_INFO
              /\ 1 < screen_index s
              /\ exists text,
                   Py.getitem (screens s) (screen_index s) = Some text
                   /\ scroll_position (after_tick t s)
                      = (scroll_position s + 10) mod scroll_limit_of s text))
    /\ (forall t : Tick, session_inv (after_tick t s))
    /\ (forall (order : Order) (now : Q),
          session_inv (set_new_order order now s)).
Proof.
  intros s Hinv.
  pose proof Hinv as (_ & _ & _ & Hst).
  split; [|split; [|split; [|split; [|split]]]].
  - intros E _. rewrite E in Hst. now destruct Hst as (_ & _ & _ & _ & H).
  - intros t Hch. destruct (display_state s) eqn:E.
    + rewrite (celebration_tick t s E) in *. destruct Hst as [Hz _].
      destruct (_ && _); [exact Hz | now contradiction Hch].
    + destruct (order_info_tick t s Hinv E) as (text & Hget & Heq).
      rewrite Heq in *.
      destruct (scrolled_frame s text) as (_ & _ & Ei & _).
      destruct (draw_ok t); [|now contradiction Hch].
      destruct (Py.ltb _ _); [|now contradiction Hch].
      now destruct (advance_screen_effect t (scrolled s text)) as (_ & _ & H & _).
    + rewrite (idle_tick t s E) in Hch. now contradiction Hch.
  - reflexivity.
  - intros t Hsame. destruct (display_state s) eqn:E.
    + left. rewrite (celebration_tick t s E). now destruct (_ && _).
    + destruct (order_info_tick t s Hinv E) as (text & Hget & Heq).
      rewrite Heq in *.
      destruct Hst as (Hlen & Hidx & _).
      destruct (scrolled_frame s text) as (_ & Es & Ei & _).
      destruct (draw_ok t); [|now left].
      destruct (Py.ltb _ _).
      * exfalso. rewrite <- Ei in Hsame. revert Hsame.
        apply advance_changes_index; now rewrite Es, ?Ei.
      * rewrite scrolled_position_eq. unfold scrolled_position.
        destruct (screen_index s >? 1) eqn:Eg; [|now left].
        right. rewrite Z.gtb_ltb in Eg. apply Z.ltb_lt in Eg.
        split; [reflexivity|]. split; [exact Eg|]. now exists text.
    + left. now rewrite (idle_tick t s E).
  - intro t. now apply after_tick_inv.
  - intros order now. now apply set_new_order_inv.
Qed.

Lemma C5_scroll_offset_bounds_witness :
  session_inv scrolling_screen_2
  /\ display_state scrolling_screen_2 = ORDER_INFO
  /\ screens scrolling_screen_2 <> []
  /\ scroll_position scrolling_screen_2 = 290
  /\ exists text,
       Py.getitem (screens scrolling_screen_2) (screen_index scrolling_screen_2)
       = Some text
       /\ 0 <= scroll_position scrolling_screen_2
          < scroll_limit_of scrolling_screen_2 text.
Proof.
  split; [exact scrolling_screen_2_inv|]. split; [reflexivity|].
  split; [exact scrolling_screen_2_screens|]. split; [reflexivity|].
  exact (proj1 (C5_scroll_offset_bounds scrolling_screen_2
                  scrolling_screen_2_inv)
           eq_refl scrolling_screen_2_screens).
Defined.

(** C5, as stated, fails twice.  With the item "Widgets" the limit of
    the third screen is 300, and a pass takes the offset from 290 to 0
    with the same screen and no order: a return to 0 at another point.
    And when the #1001 order arrives while the third screen is being
    drawn, the pass that leaves the banner changes [screen_index] from
    2 to 0 and leaves the offset at 10. *)
Lemma C5_offset_reset_points :
  reachable widgets_screen
  /\ display_state widgets_screen = ORDER_INFO
  /\ scroll_position widgets_screen = 290
  /\ screen_index (after_tick (tick_at 23) widgets_screen)
     = screen_index widgets_screen
  /\ scroll_position (after_tick (tick_at 23) widgets_screen) = 0
  /\ reachable banner_with_offset
  /\ reachable (after_tick (tick_at 27) banner_with_offset)
  /\ screen_index banner_with_offset = 2
  /\ screen_index (after_tick (tick_at 27) banner_with_offset) = 0
  /\ scroll_position (after_tick (tick_at 27) banner_with_offset) = 10.
Proof.
  split; [exact (between_passes_reachable _ widgets_screen_between)|].
  do 4 (split; [vm_compute; reflexivity|]).
  split; [exact (between_passes_reachable _ banner_with_offset_between)|].
  split.
  { apply between_passes_reachable, between_passes_tick;
      [exact banner_with_offset_between
      | vm_compute; reflexivity | vm_compute; reflexivity]. }
  do 2 (split; [vm_compute; reflexivity|]).
  vm_compute; reflexivity.
Qed.

(** ** The scroll limit *)

(** C6, as the code has it: on a pass in [ORDER_INFO] that draws the
    screen [text], the limit of the modulo scroll update and of the
    width-based advance test is the number of characters of [text]
    (its line breaks counted) plus the device width plus 156. *)
Theorem C6_scroll_limit_counts_characters :
  forall (s : DisplayManager) (t : Tick) (text : string),
    display_state s = ORDER_INFO ->
    Py.getitem (screens s) (screen_index s) = Some text ->
    draw_ok t = true ->
    Z.of_nat (String.length text) + width (device s) + 156 <> 0 ->
    let limit := Z.of_nat (String.length text) + width (device s) + 156 in
    let offset :=
      if screen_index s >? 1
      then (scroll_position s + 10) mod limit
      else scroll_position s in
    scroll_position (scrolled s text) = offset
    /\ after_tick t s
       = if Py.ltb 8 (now_check t - state_start_time s)
            || (offset >=? limit + Z.of_nat (String.length text))
         then advance_screen t (scrolled s text)
         else scrolled s text.
Proof.
  intros s t text E Hget Hd Hlim limit offset.
  split; [apply scrolled_position_eq|].
  rewrite after_tick_body. unfold loop_body. rewrite E.
  rewrite (order_info_pass_eq t s text Hget Hd); [reflexivity|].
  right. exact Hlim.
Qed.

Lemma C6_scroll_limit_counts_characters_witness :
  display_state scrolling_screen_2 = ORDER_INFO
  /\ Py.getitem (screens scrolling_screen_2) (screen_index scrolling_screen_2)
     = Some ("Product:" ++ Py.nl ++ "Widget")%string
  /\ draw_ok (tick_at 23) = true
  /\ scroll_position scrolling_screen_2 = 290
  /\ scroll_position
       (scrolled scrolling_screen_2 ("Product:" ++ Py.nl ++ "Widget")%string)
     = (290 + 10) mod (15 + 128 + 156).
Proof.
  split; [reflexivity|]. split; [reflexivity|]. split; [reflexivity|].
  split; [reflexivity|].
  refine (proj1 (C6_scroll_limit_counts_characters scrolling_screen_2
                   (tick_at 23) ("Product:" ++ Py.nl ++ "Widget")%string
                   eq_refl eq_refl eq_refl _)).
  vm_compute. discriminate.
Defined.

(** C6, as stated, fails: in a font whose characters are 6 pixels
    wide the third screen of the #1001 order measures 48 pixels, and a
    limit of 48 + 128 + 156 would take the offset from 290 to 300; the
    pass takes it to 1, the limit being 15 + 128 + 156 = 299. *)
Lemma C6_limit_is_not_pixel_width :
  reachable scrolling_screen_2
  /\ Py.getitem (screens scrolling_screen_2) (screen_index scrolling_screen_2)
     = Some ("Product:" ++ Py.nl ++ "Widget")%string
  /\ measureTextWidth (fixed_pitch 6) ("Product:" ++ Py.nl ++ "Widget")%string
     = 48
  /\ scroll_position scrolling_screen_2 = 290
  /\ (290 + 10) mod (48 + width (device scrolling_screen_2) + 156) = 300
  /\ scroll_position (after_tick (tick_at 23) scrolling_screen_2) = 1
  /\ scroll_position (after_tick (tick_at 23) scrolling_screen_2)
     <> (scroll_position scrolling_screen_2 + 10)
        mod (measureTextWidth (fixed_pitch 6)
               ("Product:" ++ Py.nl ++ "Widget")%string
             + width (device scrolling_screen_2) + 156).
Proof.
  split; [exact scrolling_screen_2_reachable|].
  repeat (split; [reflexivity|]).
  vm_compute. discriminate.
Qed.

(** ** Display failures *)

(** Enters the branch of [order_info_pass] on a non-empty screen list. *)
Ltac enter_order_info :=
  unfold order_info_pass;
  match goal with
  | |- context [screens ?s] =>
      let Es := fresh "Es" in
      destruct (screens s) eqn:Es; [congruence|]; rewrite <- Es in *
  end.

Lemma order_info_pass_index_error (t : Tick) (s : DisplayManager) :
  screens s <> [] ->
  Py.getitem (screens s) (screen_index s) = None ->
  order_info_pass t s = (s, Some IndexError).
Proof. intros Hne Hget. enter_order_info. now rewrite Hget. Qed.

Lemma order_info_pass_draw_error (t : Tick) (s : DisplayManager)
    (text : string) :
  Py.getitem (screens s) (screen_index s) = Some text ->
  draw_ok t = false ->
  order_info_pass t s = (s, Some DisplayError).
Proof.
  intros Hget Hd. pose proof (getitem_some_nonempty _ _ _ Hget) as Hne.
  enter_order_info. now rewrite Hget, Hd.
Qed.

Lemma order_info_pass_zero_division (t : Tick) (s : DisplayManager)
    (text : string) :
  Py.getitem (screens s) (screen_index s) = Some text ->
  draw_ok t = true ->
  (screen_index s >? 1) && (scroll_limit_of s text =? 0) = true ->
  order_info_pass t s = (s, Some ZeroDivisionError).
Proof.
  intros Hget Hd Hz. pose proof (getitem_some_nonempty _ _ _ Hget) as Hne.
  enter_order_info. rewrite Hget, Hd. cbn [negb].
  fold (scroll_limit_of s text). now rewrite Hz.
Qed.

Lemma order_info_pass_cases (t : Tick) (s : DisplayManager) :
  (fst (order_info_pass t s) = s
   /\ (snd (order_info_pass t s) <> None \/ screens s = []))
  \/ exists text,
       Py.getitem (screens s) (screen_index s) = Some text
       /\ snd (order_info_pass t s) = None
       /\ (fst (order_info_pass t s) = scrolled s text
           \/ fst (order_info_pass t s) = advance_screen t (scrolled s text)).
Proof.
  assert (Hd : screens s = [] \/ screens s <> [])
    by (destruct (screens s); [left | right]; congruence).
  destruct Hd as [Hnil | Hne].
  { left. unfold order_info_pass. rewrite Hnil. split; [reflexivity | now right]. }
  destruct (Py.getitem (screens s) (screen_index s)) as [text|] eqn:Hget.
  - destruct (draw_ok t) eqn:Ed.
    + destruct ((screen_index s >? 1) && (scroll_limit_of s text =? 0)) eqn:Ez.
      * left. rewrite (order_info_pass_zero_division t s text Hget Ed Ez).
        split; [reflexivity | left; discriminate].
      * right. exists text. split; [reflexivity|].
        rewrite (order_info_pass_eq t s text Hget Ed).
        -- destruct (_ || _); cbn [fst snd]; auto.
        -- apply andb_false_iff in Ez as [Ez|Ez].
           ++ left. rewrite Z.gtb_ltb in Ez. now apply Z.ltb_ge in Ez.
           ++ right. now apply Z.eqb_neq in Ez.
    + left. rewrite (order_info_pass_draw_error t s text Hget Ed).
      split; [reflexivity | left; discriminate].
  - left. rewrite (order_info_pass_index_error t s Hne Hget).
    split; [reflexivity | left; discriminate].
Qed.

Lemma loop_body_raise_keeps (t : Tick) (s : DisplayManager) (e : exn) :
  snd (loop_body t s) = Some e -> fst (loop_body t s) = s.
Proof.
  unfold loop_body. destruct (display_state s).
  - unfold celebration_pass. destruct (draw_ok t); [|reflexivity].
    cbn [negb]. destruct (Py.ltb _ _); discriminate.
  - destruct (order_info_pass_cases t s)
      as [[H _] | (text & _ & H & _)]; intro He; [exact H | congruence].
  - unfold idle_pass. now destruct (clear_ok t).
Qed.

(** C7, as the code has it: [display_loop] catches nothing.  A pass
    whose flush fails always raises; a pass that raises, at the drawing
    or at the flush, ends the loop there with that exception: no pass
    after it is carried out; an exception raised inside the body leaves
    the session as it was before the pass, one raised at the flush
    leaves it as the body set it. *)
Theorem C7_display_failure_ends_loop :
  forall (s : DisplayManager) (t : Tick) (rest : list Tick),
    running s = true ->
    (commit_ok t = false -> snd (loop_iteration t s) <> None)
    /\ (forall e : exn,
          snd (loop_iteration t s) = Some e ->
          display_loop (t :: rest) s = (after_tick t s, Crashed e)
          /\ passes_completed (t :: rest) s = 0%nat)
    /\ (forall e : exn, snd (loop_body t s) = Some e -> after_tick t s = s)
    /\ (snd (loop_body t s) = None -> commit_ok t = false ->
        loop_iteration t s = (fst (loop_body t s), Some DisplayError)).
Proof.
  intros s t rest Hrun. split; [|split; [|split]].
  - intro Hc. unfold loop_iteration.
    destruct (loop_body t s) as [s' [e|]]; [discriminate|].
    rewrite Hc. discriminate.
  - intros e He. simpl. rewrite Hrun. unfold after_tick.
    destruct (loop_iteration t s) as [s' [e'|]]; [|discriminate].
    simpl in He. injection He as ->. now split.
  - intros e He. rewrite after_tick_body. now apply loop_body_raise_keeps with e.
  - intros Hb Hc. unfold loop_iteration.
    destruct (loop_body t s) as [s' [e|]]; [discriminate|]. now rewrite Hc.
Qed.

Lemma C7_display_failure_ends_loop_witness :
  running after_order = true
  /\ commit_ok (failing_commit 1) = false
  /\ display_loop [failing_commit 1; tick_at 4] after_order
     = (after_tick (failing_commit 1) after_order, Crashed DisplayError)
  /\ passes_completed [failing_commit 1; tick_at 4] after_order = 0%nat.
Proof.
  split; [reflexivity|]. split; [reflexivity|].
  exact (proj1 (proj2 (C7_display_failure_ends_loop after_order
                         (failing_commit 1) [tick_at 4] eq_refl))
           DisplayError eq_refl).
Defined.

(** C7, as stated, fails: a pass whose flush fails is not skipped; the
    loop ends with the exception and the pass after it never runs,
    where a loop that went on would have left the banner. *)
Lemma C7_failed_frame_ends_loop :
  running after_order = true
  /\ snd (display_loop [failing_commit 1; tick_at 4] after_order)
     = Crashed DisplayError
  /\ passes_completed [failing_commit 1; tick_at 4] after_order = 0%nat
  /\ display_state (fst (display_loop [failing_commit 1; tick_at 4] after_order))
     = CELEBRATION
  /\ display_loop [tick_at 4] after_order = (on_screen_0, Looping)
  /\ display_loop [failing_commit 1; tick_at 4] after_order
     <> display_loop [tick_at 4] after_order.
Proof.
  repeat (split; [reflexivity|]).
  intro H. apply (f_equal snd) in H. vm_compute in H. discriminate H.
Qed.

(** ** The screen index *)

Lemma index_valid_tick (t : Tick) (s : DisplayManager) :
  index_valid s -> index_valid (after_tick t s).
Proof.
  intro Hv. rewrite after_tick_body. unfold loop_body.
  destruct (display_state s) eqn:E.
  - unfold celebration_pass. destruct (draw_ok t); [|exact Hv]. cbn [negb].
    destruct (Py.ltb _ _); [|exact Hv].
    intros _ Hne. simpl in *. split; [lia|].
    unfold Py.len. destruct (screens s); [congruence | simpl; lia].
  - destruct (order_info_pass_cases t s)
      as [[-> _] | (text & Hget & _ & Hcase)]; [exact Hv|].
    pose proof (getitem_some_nonempty _ _ _ Hget) as Hne.
    destruct (scrolled_frame s text) as (Ed & Es & Ei & _).
    destruct (Hv E Hne) as [H0 H1].
    destruct Hcase as [-> | ->].
    + intros _ _. now rewrite Es, Ei.
    + intros E' _.
      destruct (advance_screen_effect t (scrolled s text))
        as (Es' & _ & _ & [(Hlt & Hi & _) | (Hge & Hi & _)]);
        rewrite Es', Hi, Es in *; lia.
  - unfold idle_pass. now destruct (clear_ok t).
Qed.

(** The exceptions of a pass and where they come from. *)
Lemma pass_raises (t : Tick) (s : DisplayManager) (e : exn) :
  snd (loop_iteration t s) = Some e ->
  e = DisplayError
  \/ (e = IndexError
      /\ display_state s = ORDER_INFO
      /\ screens s <> []
      /\ Py.getitem (screens s) (screen_index s) = None)
  \/ (e = ZeroDivisionError
      /\ display_state s = ORDER_INFO
      /\ 1 < screen_index s
      /\ exists text,
           Py.getitem (screens s) (screen_index s) = Some text
           /\ scroll_limit_of s text = 0).
Proof.
  unfold loop_iteration, loop_body. destruct (display_state s) eqn:E.
  - unfold celebration_pass. destruct (draw_ok t); cbn [negb];
      [destruct (Py.ltb _ _)|]; cbn; try destruct (commit_ok t);
      intro H; try discriminate H; left; cbn in H; congruence.
  - assert (Hd : screens s = [] \/ screens s <> [])
      by (destruct (screens s); [left | right]; congruence).
    destruct Hd as [Hnil | Hne].
    { unfold order_info_pass. rewrite Hnil. cbn.
      destruct (commit_ok t); intro H; [discriminate H|].
      left. cbn in H. congruence. }
    destruct (Py.getitem (screens s) (screen_index s)) as [text|] eqn:Hget.
    + destruct (draw_ok t) eqn:Ed.
      * destruct ((screen_index s >? 1) && (scroll_limit_of s text =? 0)) eqn:Ez.
        -- rewrite (order_info_pass_zero_division t s text Hget Ed Ez).
           cbn. intro H. right; right.
           apply andb_true_iff in Ez as [Eg Ez].
           rewrite Z.gtb_ltb in Eg. apply Z.ltb_lt in Eg.
           apply Z.eqb_eq in Ez.
           split; [congruence|]. split; [reflexivity|]. split; [exact Eg|].
           now exists text.
        -- rewrite (order_info_pass_eq t s text Hget Ed).
           ++ destruct (_ || _); cbn; destruct (commit_ok t);
                intro H; try discriminate H; left; cbn in H; congruence.
           ++ apply andb_false_iff in Ez as [Ez|Ez].
              ** left. rewrite Z.gtb_ltb in Ez. now apply Z.ltb_ge in Ez.
              ** right. now apply Z.eqb_neq in Ez.
      * rewrite (order_info_pass_draw_error t s text Hget Ed).
        cbn. intro H. left. congruence.
    + rewrite (order_info_pass_index_error t s Hne Hget).
      cbn. intro H. right; left. repeat split; congruence.
  - unfold idle_pass. destruct (clear_ok t); cbn; try destruct (commit_ok t);
      intro H; try discriminate H; left; cbn in H; congruence.
Qed.

Lemma pass_index_error (t : Tick) (s : DisplayManager) :
  snd (loop_iteration t s) = Some IndexError <->
  display_state s = ORDER_INFO
  /\ screens s <> []
  /\ Py.getitem (screens s) (screen_index s) = None.
Proof.
  split.
  - intro H. destruct (pass_raises t s IndexError H)
      as [H' | [(_ & H') | (H' & _)]]; [discriminate H' | exact H' | discriminate H'].
  - intros (E & Hne & Hget). unfold loop_iteration, loop_body. rewrite E.
    now rewrite (order_info_pass_index_error t s Hne Hget).
Qed.

Lemma index_valid_getitem (s : DisplayManager) :
  index_valid s -> display_state s = ORDER_INFO -> screens s <> [] ->
  Py.getitem (screens s) (screen_index s) <> None.
Proof.
  intros Hv E Hne H.
  destruct (getitem_in_range (screens s) (screen_index s) (Hv E Hne))
    as [x Hx].
  congruence.
Qed.

(** C8, as the code has it: while a screen is shown (state
    [ORDER_INFO], [screens] not empty) that [screen_index] is an index
    of [screens] holds after construction and in every session that
    satisfies the invariant; a pass during which no order arrives (the
    wrap at the end of the list included) and an order that arrives
    between two passes keep it; and a pass from a session where it
    holds never raises [IndexError]. *)
Theorem C8_screen_index_valid :
  forall s : DisplayManager,
    (index_valid s ->
       (forall t : Tick, index_valid (after_tick t s))
       /\ (forall (order : Order) (now : Q),
             index_valid (set_new_order order now s))
       /\ (forall t : Tick, snd (loop_iteration t s) <> Some IndexError))
    /\ (forall (w h : Z) (now : Q), index_valid (init w h now))
    /\ (session_inv s -> index_valid s).
Proof.
  intro s. split; [|split].
  - intro Hv. split; [|split].
    + intro t. now apply index_valid_tick.
    + intros order now E. discriminate E.
    + intros t H. apply pass_index_error in H as (E & Hne & Hget).
      now apply (index_valid_getitem s Hv E Hne).
  - intros w h now E. discriminate E.
  - intros (_ & _ & _ & Hst) E _. rewrite E in Hst.
    now destruct Hst as (_ & H & _).
Qed.

Lemma C8_screen_index_valid_witness :
  index_valid on_screen_2
  /\ display_state (after_tick (tick_at 31) on_screen_2) = ORDER_INFO
  /\ index_valid (after_tick (tick_at 31) on_screen_2)
  /\ snd (loop_iteration (tick_at 31) on_screen_2) <> Some IndexError.
Proof.
  assert (Hv : index_valid on_screen_2).
  { intros _ _. vm_compute. split; [discriminate | reflexivity]. }
  split; [exact Hv|]. split; [reflexivity|].
  destruct (proj1 (C8_screen_index_valid on_screen_2) Hv) as (H1 & _ & H3).
  split; [exact (H1 (tick_at 31)) | exact (H3 (tick_at 31))].
Defined.

(** C8, as stated, fails: nothing keeps an order from arriving during
    a pass.  On the third of three screens, an order with two screens
    arrives after line 130 of the pass; line 135 then subscripts the
    new list with the index 2 and the display thread ends with
    [IndexError].  And once the handler has run line 188 and not yet
    line 191, the session is in [ORDER_INFO] with index 2 on two
    screens. *)
Lemma C8_order_during_pass :
  reachable on_screen_2
  /\ index_valid on_screen_2
  /\ Threads.run order_after_len
  /\ Threads.crashed order_after_len = Some IndexError
  /\ screen_index (Threads.session order_after_len) = 2
  /\ Py.len (screens (Threads.session order_after_len)) = 2
  /\ reachable order_half_stored
  /\ display_state order_half_stored = ORDER_INFO
  /\ screens order_half_stored = _create_order_screens order_empty
  /\ screen_index order_half_stored = 2
  /\ ~ index_valid order_half_stored.
Proof.
  split; [exact on_screen_2_reachable|].
  split; [intros _ _; vm_compute; split; [discriminate | reflexivity]|].
  split; [exact order_after_len_run|].
  do 3 (split; [vm_compute; reflexivity|]).
  split; [exact order_half_stored_reachable|].
  do 3 (split; [vm_compute; reflexivity|]).
  intro Hv.
  assert (Hne : screens order_half_stored <> []) by (vm_compute; discriminate).
  assert (E : display_state order_half_stored = ORDER_INFO)
    by (vm_compute; reflexivity).
  destruct (Hv E Hne) as [_ H]. vm_compute in H. discriminate H.
Qed.

(** ** The lightning animation *)

Lemma lightning_loop_keeps (duration start_time : Q) (flashes : list Flash) :
  forall (s : DisplayManager) (shown : list Frame),
    fst (fst (lightning_loop duration start_time flashes s shown)) = s.
Proof.
  induction flashes as [|f rest IH]; intros s shown; simpl; [reflexivity|].
  destruct (Py.ltb _ _); [|reflexivity].
  destruct (_draw_lightning _ _); [|reflexivity].
  destruct (bolt_commit_ok f); [|reflexivity]. cbn [negb].
  destruct (blank_commit_ok f); [|reflexivity]. cbn [negb].
  apply IH.
Qed.

Lemma lightning_loop_pending (duration start_time : Q) (flashes : list Flash) :
  forall (s : DisplayManager) (shown : list Frame),
    snd (lightning_loop duration start_time flashes s shown) <> Pending
    \/ forallb (within_duration duration start_time) flashes = true.
Proof.
  induction flashes as [|f rest IH]; intros s shown; simpl; [now right|].
  unfold within_duration at 1.
  destruct (Py.ltb _ _); [|left; discriminate].
  destruct (_draw_lightning _ _); [|left; discriminate].
  destruct (bolt_commit_ok f); [|left; discriminate]. cbn [negb].
  destruct (blank_commit_ok f); [|left; discriminate]. cbn [negb andb].
  apply IH.
Qed.

(** C9: for every duration and every session state,
    [show_lightning_animation] leaves the session as it found it:
    [display_state], [state_start_time], [screens], [screen_index],
    [cycles_remaining] and [scroll_position] are the same after the
    call, however it ends; and it has ended unless every clock reading
    given to it is still inside the duration. *)
Theorem C9_lightning_keeps_session :
  forall (duration start_time : Q) (flashes : list Flash) (s : DisplayManager),
    let s' := fst (fst (show_lightning_animation duration start_time flashes s)) in
    s' = s
    /\ display_state s' = display_state s
    /\ state_start_time s' = state_start_time s
    /\ screens s' = screens s
    /\ screen_index s' = screen_index s
    /\ cycles_remaining s' = cycles_remaining s
    /\ scroll_position s' = scroll_position s
    /\ (snd (show_lightning_animation duration start_time flashes s) <> Pending
        \/ forallb (within_duration duration start_time) flashes = true).
Proof.
  intros duration start_time flashes s s'.
  assert (H : s' = s) by apply lightning_loop_keeps.
  rewrite H. repeat (split; [reflexivity|]).
  apply lightning_loop_pending.
Qed.

(** ** The advance test *)

(** C10, as the code has it: in a session that satisfies the invariant
    (kept by every pass and every order that do not overlap) the
    offset of a shown screen after the scroll update is below the
    scroll limit, so the width-based half of the advance test is false;
    the pass changes the screen only when [now - state_start_time]
    exceeds 8 seconds, and then (the screen drawn) it does. *)
Theorem C10_advance_only_on_timeout :
  forall (s : DisplayManager) (t : Tick),
    session_inv s ->
    display_state s = ORDER_INFO ->
    exists text,
      Py.getitem (screens s) (screen_index s) = Some text
      /\ 0 <= scrolled_position s text < scroll_limit_of s text
      /\ width_disjunct s text (scrolled_position s text) = false
      /\ (scrolled_position s text
          >=? Z.of_nat (String.length text) + width (device s) + 156
              + Z.of_nat (String.length text)) = false
      /\ (screen_index (after_tick t s) <> screen_index s ->
          (8 < now_check t - state_start_time s)%Q)
      /\ (draw_ok t = true ->
          (8 < now_check t - state_start_time s)%Q ->
          screen_index (after_tick t s) <> screen_index s
          /\ scroll_position (after_tick t s) = 0).
Proof.
  intros s t Hinv E.
  destruct (order_info_tick t s Hinv E) as (text & Hget & Heq).
  destruct (width_disjunct_false s text Hinv E Hget) as [Hb Hw].
  pose proof Hinv as (_ & _ & _ & Hst). rewrite E in Hst.
  destruct Hst as (Hlen & Hidx & _).
  destruct (scrolled_frame s text) as (_ & Es & Ei & _).
  exists text. repeat (split; [assumption|]).
  rewrite Heq. change SCREEN_TIMEOUT with 8%Q. split.
  - intro Hch. destruct (draw_ok t); [|now contradiction Hch].
    destruct (Py.ltb _ _) eqn:El; [now apply ltb_true in El|].
    now contradiction Hch.
  - intros -> Hlate. apply ltb_true in Hlate. rewrite Hlate. split.
    + rewrite <- Ei. apply advance_changes_index; now rewrite Es, ?Ei.
    + now destruct (advance_screen_effect t (scrolled s text)) as (_ & _ & H & _).
Qed.

Lemma C10_advance_only_on_timeout_witness :
  session_inv on_screen_2
  /\ display_state on_screen_2 = ORDER_INFO
  /\ exists text,
       Py.getitem (screens on_screen_2) (screen_index on_screen_2) = Some text
       /\ width_disjunct on_screen_2 text (scrolled_position on_screen_2 text)
          = false.
Proof.
  split; [exact on_screen_2_inv|]. split; [reflexivity|].
  destruct (C10_advance_only_on_timeout on_screen_2 (tick_at 31)
              on_screen_2_inv eq_refl)
    as (text & Hget & _ & Hw & _).
  exists text. now split.
Defined.

(** C10, as stated, fails: a pass on a long third screen has read the
    offset 340 and computed 350 on line 137 when the #1001 order
    arrives and resets the offset; the pass then stores 350.  The
    banner keeps it, and on the first screen of the new order, whose
    limit is 312 and whose length is 28, the width-based half of the
    test is true: the pass at one second advances to the second
    screen. *)
Lemma C10_width_test_fires :
  reachable long_screen
  /\ scroll_position long_screen = 340
  /\ Threads.run order_during_store
  /\ Threads.pc order_during_store = Threads.Top
  /\ Threads.crashed order_during_store = None
  /\ reachable first_screen_with_offset
  /\ display_state first_screen_with_offset = ORDER_INFO
  /\ screen_index first_screen_with_offset = 0
  /\ scroll_position first_screen_with_offset = 350
  /\ Py.getitem (screens first_screen_with_offset)
       (screen_index first_screen_with_offset)
     = Some ("Order #1001" ++ Py.nl ++ "Total: 42.50 USD")%string
  /\ scroll_limit_of first_screen_with_offset
       ("Order #1001" ++ Py.nl ++ "Total: 42.50 USD")%string = 312
  /\ width_disjunct first_screen_with_offset
       ("Order #1001" ++ Py.nl ++ "Total: 42.50 USD")%string
       (scrolled_position first_screen_with_offset
          ("Order #1001" ++ Py.nl ++ "Total: 42.50 USD")%string)
     = true
  /\ ~ (8 < now_check (tick_at 28)
            - state_start_time first_screen_with_offset)%Q
  /\ reachable (after_tick (tick_at 28) first_screen_with_offset)
  /\ screen_index (after_tick (tick_at 28) first_screen_with_offset) = 1.
Proof.
  split; [exact (between_passes_reachable _ long_screen_between)|].
  split; [vm_compute; reflexivity|].
  split; [exact order_during_store_run|].
  do 2 (split; [vm_compute; reflexivity|]).
  split; [exact (between_passes_reachable _ first_screen_with_offset_between)|].
  do 6 (split; [vm_compute; reflexivity|]).
  split; [vm_compute; discriminate|].
  split; [|vm_compute; reflexivity].
  apply between_passes_reachable, between_passes_tick;
    [exact first_screen_with_offset_between
    | vm_compute; reflexivity | vm_compute; reflexivity].
Qed.

(** * Further properties of the display loop *)

(** ** What the loop leaves alone *)

Lemma advance_screen_frame (t : Tick) (s : DisplayManager) :
  screens (advance_screen t s) = screens s
  /\ order_data (advance_screen t s) = order_data s
  /\ device (advance_screen t s) = device s
  /\ running (advance_screen t s) = running s.
Proof.
  unfold advance_screen. cbn [screen_index screens cycles_remaining
    set_screen_index set_scroll_position set_state_start_time
    set_cycles_remaining].
  destruct (_ >=? _); [destruct (_ <=? _)|]; now repeat split.
Qed.

Lemma scrolled_frame_rest (s : DisplayManager) (text : string) :
  order_data (scrolled s text) = order_data s
  /\ running (scrolled s text) = running s.
Proof. unfold scrolled. now destruct (screen_index s >? 1). Qed.

Lemma after_tick_frame (t : Tick) (s : DisplayManager) :
  screens (after_tick t s) = screens s
  /\ order_data (after_tick t s) = order_data s
  /\ device (after_tick t s) = device s
  /\ running (after_tick t s) = running s.
Proof.
  rewrite after_tick_body. unfold loop_body. destruct (display_state s).
  - unfold celebration_pass. destruct (draw_ok t); [|now repeat split].
    cbn [negb]. destruct (Py.ltb _ _); now repeat split.
  - destruct (order_info_pass_cases t s)
      as [[-> _] | (text & _ & _ & [-> | ->])]; [now repeat split | |].
    + destruct (scrolled_frame s text) as (_ & Es & _ & _ & _ & Ed).
      destruct (scrolled_frame_rest s text) as [Eo Er]. now repeat split.
    + destruct (advance_screen_frame t (scrolled s text)) as (-> & -> & -> & ->).
      destruct (scrolled_frame s text) as (_ & Es & _ & _ & _ & Ed).
      destruct (scrolled_frame_rest s text) as [Eo Er]. now repeat split.
  - unfold idle_pass. destruct (clear_ok t); now repeat split.
Qed.

(** X1: however long [display_loop] runs and however it ends, it leaves
    the screen list, the stored order, the device and the [running]
    flag as they were: only [set_new_order] changes what is shown and
    only [stop] ends the loop. *)
Theorem display_loop_frame :
  forall (ticks : list Tick) (s : DisplayManager),
    screens (fst (display_loop ticks s)) = screens s
    /\ order_data (fst (display_loop ticks s)) = order_data s
    /\ device (fst (display_loop ticks s)) = device s
    /\ running (fst (display_loop ticks s)) = running s.
Proof.
  induction ticks as [|t rest IH]; intro s; simpl; [now repeat split|].
  destruct (running s) eqn:Er; [|now repeat split].
  pose proof (after_tick_frame t s) as Hf. unfold after_tick in Hf.
  rewrite Er in Hf.
  destruct (loop_iteration t s) as [s' [e|]]; cbn [fst] in *; [exact Hf|].
  destruct (IH s') as (-> & -> & -> & ->). exact Hf.
Qed.

(** ** The loop does not end by itself *)

Lemma inv_pass_outcome (t : Tick) (s : DisplayManager) :
  session_inv s ->
  (snd (loop_iteration t s) = None \/ snd (loop_iteration t s) = Some DisplayError)
  /\ (tick_ok t = true -> snd (loop_iteration t s) = None).
Proof.
  intro Hinv. unfold tick_ok, loop_iteration, loop_body.
  pose proof Hinv as (Hw & _ & _ & Hst).
  destruct (display_state s) eqn:E.
  - unfold celebration_pass. destruct (draw_ok t); cbn [negb andb].
    + destruct (Py.ltb _ _); destruct (commit_ok t), (clear_ok t);
        cbn; split; auto; discriminate.
    + split; [now right | discriminate].
  - destruct Hst as (_ & _ & _ & _ & text & Hget & _).
    destruct (draw_ok t) eqn:Ed; cbn [andb].
    + rewrite (order_info_pass_eq t s text Hget Ed).
      * destruct (_ || _); destruct (commit_ok t), (clear_ok t);
          cbn; split; auto; discriminate.
      * right. pose proof (scroll_limit_pos s text Hw). lia.
    + rewrite (order_info_pass_draw_error t s text Hget Ed).
      split; [now right | discriminate].
  - unfold idle_pass.
    destruct (clear_ok t), (commit_ok t), (draw_ok t);
      cbn; split; auto; discriminate.
Qed.


(** Passes that work, run one after the other with no order in
    between, are steps of the two threads. *)
Lemma display_loop_between_passes (ticks : list Tick) :
  forall s : DisplayManager,
    between_passes s ->
    session_inv s -> running s = true -> forallb tick_ok ticks = true ->
    between_passes (fst (display_loop ticks s)).
Proof.
  induction ticks as [|t rest IH]; intros s H Hinv Hrun Hok; simpl.
  - exact H.
  - rewrite Hrun. simpl in Hok. apply andb_true_iff in Hok as [Ht Hrest].
    pose proof (proj2 (inv_pass_outcome t s Hinv) Ht) as Hnone.
    pose proof (after_tick_inv t s Hinv) as Hinv'.
    pose proof (between_passes_tick t s H Hrun Hnone) as H'.
    destruct (after_tick_frame t s) as (_ & _ & _ & Hrun').
    unfold after_tick in *.
    destruct (loop_iteration t s) as [s' [e|]]; [discriminate|].
    cbn [fst] in *. rewrite Hrun in Hrun'. now apply IH.
Qed.


(** ** States in which nothing moves *)

Lemma inert_pass (t : Tick) (s : DisplayManager) :
  display_state s = IDLE \/ (display_state s = ORDER_INFO /\ screens s = []) ->
  after_tick t s = s.
Proof.
  intros [E | [E Hnil]].
  - now apply idle_tick.
  - rewrite after_tick_body. unfold loop_body, order_info_pass.
    now rewrite E, Hnil.
Qed.

(** X3: an idle display stays as it is through every run of the loop,
    whatever the clock shows: only an order wakes it; and the same
    holds for [ORDER_INFO] with an empty screen list, which the guard
    [if self.screens] never leaves. *)
Theorem idle_is_inert :
  forall (ticks : list Tick) (s : DisplayManager),
    display_state s = IDLE \/ (display_state s = ORDER_INFO /\ screens s = []) ->
    fst (display_loop ticks s) = s
    /\ wraps_during ticks s = 0%nat.
Proof.
  induction ticks as [|t rest IH]; intros s Hs; simpl; [now split|].
  destruct (running s); [|now split].
  pose proof (inert_pass t s Hs) as Hk. unfold after_tick in Hk.
  assert (Hw : wrapped s s = false).
  { unfold wrapped. destruct Hs as [-> | [-> Hnil]]; [reflexivity|].
    rewrite Hnil. unfold Py.len. simpl.
    destruct (screen_index s =? -1) eqn:E1; [|reflexivity].
    apply Z.eqb_eq in E1. rewrite E1. reflexivity. }
  destruct (loop_iteration t s) as [s' [e|]]; cbn [fst] in Hk; subst s';
    rewrite Hw; cbn [fst]; [now split|].
  destruct (IH s Hs) as [-> ->]. now split.
Qed.

Lemma idle_is_inert_witness :
  display_state (init 128 64 0) = IDLE
  /\ fst (display_loop [tick_at 5; failing_commit 20; tick_at 100] (init 128 64 0))
     = init 128 64 0.
Proof.
  split; [reflexivity|].
  exact (proj1 (idle_is_inert [tick_at 5; failing_commit 20; tick_at 100]
                  (init 128 64 0) (or_introl eq_refl))).
Defined.

(** ** An order erases what was shown before *)






(** * Properties of the lightning animation *)

Lemma randint_range (a b raw : Z) :
  a <= b -> exists r, randint a b raw = Some r /\ a <= r <= b.
Proof.
  intro H. unfold randint. rewrite (proj2 (Z.ltb_ge b a) H).
  eexists. split; [reflexivity|].
  pose proof (Z.mod_pos_bound raw (b - a + 1)). lia.
Qed.

Lemma bolt_segments_inside (dev : Device) (rng : nat -> Z) (n : nat) :
  0 < width dev -> 0 < height dev ->
  forall (k : nat) (x y : Z),
    inside dev x y ->
    exists segs,
      bolt_segments dev rng k n x y = Some segs
      /\ List.length segs = n
      /\ connected (x, y)
           (map (fun '(x1, y1, x2, y2) => Line x1 y1 x2 y2 "white" 1) segs)
      /\ Forall (line_inside dev)
           (map (fun '(x1, y1, x2, y2) => Line x1 y1 x2 y2 "white" 1) segs).
Proof.
  intros Hw Hh. induction n as [|n IH]; intros k x y Hin.
  - exists []. simpl. repeat split; constructor.
  - simpl.
    destruct (randint_range (- width dev / 4) (width dev / 4) (rng k))
      as (dx & -> & Hdx).
    { apply Z.div_le_mono; lia. }
    destruct (randint_range (height dev / 8) (height dev / 6) (rng (S k)))
      as (dy & -> & Hdy).
    { apply Z.div_le_compat_l; lia. }
    assert (H8 : 0 <= height dev / 8) by (apply Z.div_pos; lia).
    set (nx := Z.max 0 (Z.min (width dev - 1) (x + dx))).
    set (ny := Z.max 0 (Z.min (height dev - 1) (y + dy))).
    assert (Hin' : inside dev nx ny) by (unfold inside, nx, ny in *; lia).
    destruct (IH (S (S k)) nx ny Hin') as (segs & -> & Hlen & Hc & Hf).
    exists ((x, y, nx, ny) :: segs). simpl.
    split; [reflexivity|]. split; [now rewrite Hlen|].
    split; [now split|]. constructor; [|exact Hf].
    simpl. split; [exact Hin|]. split; [exact Hin'|].
    unfold inside, ny in *. lia.
Qed.

Lemma draw_lightning_bolt (dev : Device) (rng : nat -> Z) :
  0 < width dev -> 0 < height dev ->
  exists (bolt : Frame) (start_x : Z),
    _draw_lightning dev rng = Some bolt
    /\ (5 <= List.length bolt <= 8)%nat
    /\ width dev / 4 <= start_x <= width dev / 4 * 3
    /\ connected (start_x, 0) bolt
    /\ Forall (line_inside dev) bolt.
Proof.
  intros Hw Hh. unfold _draw_lightning.
  assert (H4 : 0 <= width dev / 4) by (apply Z.div_pos; lia).
  destruct (randint_range (width dev / 4) (width dev / 4 * 3) (rng 0%nat))
    as (start_x & -> & Hx); [lia|].
  destruct (randint_range 5 8 (rng 1%nat)) as (num & -> & Hn); [lia|].
  assert (Hin : inside dev start_x 0).
  { unfold inside. split; [|lia].
    pose proof (Z.mul_div_le (width dev) 4). lia. }
  destruct (bolt_segments_inside dev rng (Z.to_nat num) Hw Hh 2 start_x 0 Hin)
    as (segs & -> & Hlen & Hc & Hf).
  eexists. exists start_x. split; [reflexivity|].
  rewrite length_map, Hlen. repeat split; try assumption; lia.
Qed.

(** X5: on a device of positive size [_draw_lightning] raises nothing
    and draws a bolt of 5 to 8 lines: one path that starts on the top
    row between a quarter and three quarters of the width, never goes
    up, and stays on the pixels of the device. *)
Theorem bolt_stays_on_device :
  forall (dev : Device) (rng : nat -> Z),
    0 < width dev -> 0 < height dev ->
    exists (bolt : Frame) (start_x : Z),
      _draw_lightning dev rng = Some bolt
      /\ (5 <= List.length bolt <= 8)%nat
      /\ width dev / 4 <= start_x <= width dev / 4 * 3
      /\ connected (start_x, 0) bolt
      /\ Forall (line_inside dev) bolt.
Proof. intros dev rng. apply draw_lightning_bolt. Qed.

Lemma bolt_stays_on_device_witness :
  0 < width (mkDevice 128 64) /\ 0 < height (mkDevice 128 64)
  /\ exists (bolt : Frame) (start_x : Z),
       _draw_lightning (mkDevice 128 64) (fun k => Z.of_nat k * 37) = Some bolt
       /\ (5 <= List.length bolt <= 8)%nat
       /\ width (mkDevice 128 64) / 4 <= start_x <= width (mkDevice 128 64) / 4 * 3
       /\ connected (start_x, 0) bolt
       /\ Forall (line_inside (mkDevice 128 64)) bolt.
Proof.
  split; [reflexivity|]. split; [reflexivity|].
  exact (bolt_stays_on_device (mkDevice 128 64) (fun k => Z.of_nat k * 37)
           eq_refl eq_refl).
Defined.




(** * Properties of the LED *)

Lemma level_of_app (pin : Z) (a b : list GpioEvent) :
  level_of pin (a ++ b) = fold_left (level_step pin) b (level_of pin a).
Proof. unfold level_of. apply fold_left_app. Qed.

Lemma pulses_app (pin : Z) (a b : list GpioEvent) :
  pulses pin (a ++ b) = (pulses pin a + pulses pin b)%nat.
Proof. unfold pulses. now rewrite filter_app, length_app. Qed.

Lemma time_slept_from (trace : list GpioEvent) :
  forall acc : Q,
    (fold_left (fun acc e => match e with Sleep d => acc + d | _ => acc end)
       trace acc
     == acc + time_slept trace)%Q.
Proof.
  unfold time_slept. induction trace as [|e rest IH]; intro acc; simpl.
  - ring.
  - destruct e as [| pin | pin level | d |]; try apply IH.
    rewrite IH, (IH (0 + d)%Q). ring.
Qed.

Lemma time_slept_app (a b : list GpioEvent) :
  (time_slept (a ++ b) == time_slept a + time_slept b)%Q.
Proof.
  unfold time_slept at 1. rewrite fold_left_app. apply time_slept_from.
Qed.

Lemma blink_loop_ok (pin : Z) (on_time off_time : Q) (n : nat) :
  (0 <= on_time)%Q -> (0 <= off_time)%Q ->
  forall trace : list GpioEvent,
    snd (blink_loop pin n on_time off_time trace) = None
    /\ (n = 0%nat -> fst (blink_loop pin n on_time off_time trace) = trace)
    /\ (n <> 0%nat ->
        level_of pin (fst (blink_loop pin n on_time off_time trace)) = Some LOW)
    /\ pulses pin (fst (blink_loop pin n on_time off_time trace))
       = (pulses pin trace + n)%nat
    /\ (time_slept (fst (blink_loop pin n on_time off_time trace))
        == time_slept trace + inject_Z (Z.of_nat n) * (on_time + off_time))%Q
    /\ (forall p : Z, p <> pin ->
        level_of p (fst (blink_loop pin n on_time off_time trace))
        = level_of p trace).
Proof.
  intros Hon Hoff.
  assert (Eon : Py.ltb on_time 0 = false)
    by (apply ltb_false; now apply Qle_not_lt).
  assert (Eoff : Py.ltb off_time 0 = false)
    by (apply ltb_false; now apply Qle_not_lt).
  induction n as [|n IH]; intro trace.
  - simpl. repeat split; auto; try congruence.
    unfold inject_Z. simpl. ring.
  - cbn [blink_loop]. rewrite Eon, Eoff.
    destruct (IH (((trace ++ [Output pin HIGH])
                   ++ [Sleep on_time; Output pin LOW]) ++ [Sleep off_time]))
      as (He & H0 & Hlow & Hp & Ht & Hother).
    split; [exact He|]. split; [discriminate|]. split; [|split; [|split]].
    + intros _. destruct n as [|n'].
      * rewrite (H0 eq_refl). rewrite !level_of_app. simpl.
        now rewrite Z.eqb_refl.
      * apply Hlow. discriminate.
    + rewrite Hp, !pulses_app. unfold pulses. simpl.
      rewrite Z.eqb_refl. simpl. lia.
    + rewrite Ht, !time_slept_app, Nat2Z.inj_succ. unfold Z.succ.
      rewrite inject_Z_plus. unfold time_slept at 2 3 4. cbn [fold_left].
      change (inject_Z 1) with 1%Q. ring.
    + intros p Hp'. rewrite (Hother p Hp'), !level_of_app. simpl.
      apply Z.eqb_neq in Hp'. rewrite Z.eqb_sym in Hp'. now rewrite Hp'.
Qed.

(** X7: with sleep lengths that are not negative, [blink] raises
    nothing; it drives the pin high [times] times and sleeps
    [times * (on_time + off_time)] seconds in all; for [times >= 1] it
    leaves the LED off, whatever it was before, and for [times <= 0] it
    does nothing at all; it never touches another pin. *)
Theorem blink_leaves_led_off :
  forall (led : LEDManager) (times : Z) (on_time off_time : Q)
         (trace : list GpioEvent),
    (0 <= on_time)%Q -> (0 <= off_time)%Q ->
    snd (blink led times on_time off_time trace) = None
    /\ (times <= 0 -> fst (blink led times on_time off_time trace) = trace)
    /\ (0 < times ->
        level_of (gpio_pin led) (fst (blink led times on_time off_time trace))
        = Some LOW)
    /\ pulses (gpio_pin led) (fst (blink led times on_time off_time trace))
       = (pulses (gpio_pin led) trace + Z.to_nat times)%nat
    /\ (time_slept (fst (blink led times on_time off_time trace))
        == time_slept trace
           + inject_Z (Z.max 0 times) * (on_time + off_time))%Q
    /\ (forall p : Z, p <> gpio_pin led ->
        level_of p (fst (blink led times on_time off_time trace))
        = level_of p trace).
Proof.
  intros led times on_time off_time trace Hon Hoff. unfold blink.
  destruct (blink_loop_ok (gpio_pin led) on_time off_time (Z.to_nat times)
              Hon Hoff trace) as (He & H0 & Hlow & Hp & Ht & Hother).
  split; [exact He|]. split; [|split; [|split; [|split]]].
  - intro H. apply H0. lia.
  - intro H. apply Hlow. lia.
  - exact Hp.
  - rewrite Ht.
    replace (Z.of_nat (Z.to_nat times)) with (Z.max 0 times) by lia.
    reflexivity.
  - exact Hother.
Qed.

Lemma blink_leaves_led_off_witness :
  (0 <= 1 # 5)%Q /\ (0 <= 1 # 5)%Q
  /\ level_of 17 (turn_on (mkLEDManager 17) (snd (led_init 17 []))) = Some HIGH
  /\ level_of 17
       (fst (blink (mkLEDManager 17) 45 (1 # 5) (1 # 5)
               (turn_on (mkLEDManager 17) (snd (led_init 17 [])))))
     = Some LOW.
Proof.
  assert (H : (0 <= 1 # 5)%Q) by discriminate.
  split; [exact H|]. split; [exact H|]. split; [reflexivity|].
  exact (proj1 (proj2 (proj2
           (blink_leaves_led_off (mkLEDManager 17) 45 (1 # 5) (1 # 5)
              (turn_on (mkLEDManager 17) (snd (led_init 17 []))) H H)))
           eq_refl).
Defined.

(** X8: a negative [on_time] makes the first [time.sleep] of [blink]
    raise [ValueError] after the pin is driven high: the LED stays on
    and nothing more is done. *)
Theorem blink_negative_on_time :
  forall (led : LEDManager) (times : Z) (on_time off_time : Q)
         (trace : list GpioEvent),
    0 < times -> (on_time < 0)%Q ->
    blink led times on_time off_time trace
    = (trace ++ [Output (gpio_pin led) HIGH], Some ValueError)
    /\ level_of (gpio_pin led) (fst (blink led times on_time off_time trace))
       = Some HIGH.
Proof.
  intros led times on_time off_time trace Ht Hon. unfold blink.
  destruct (Z.to_nat times) as [|n] eqn:En; [lia|].
  simpl. apply ltb_true in Hon. rewrite Hon. split; [reflexivity|].
  simpl. rewrite level_of_app. simpl. now rewrite Z.eqb_refl.
Qed.

Lemma blink_negative_on_time_witness :
  0 < 5 /\ (-1 < 0)%Q
  /\ level_of 17 (fst (blink (mkLEDManager 17) 5 (-1) (1 # 5)
                         (snd (led_init 17 []))))
     = Some HIGH.
Proof.
  split; [reflexivity|]. split; [reflexivity|].
  exact (proj2 (blink_negative_on_time (mkLEDManager 17) 5 (-1) (1 # 5)
                  (snd (led_init 17 [])) eq_refl eq_refl)).
Defined.

(** * Properties of the text drawing *)

Lemma floor_half_centred (w : Z) (lw : Q) :
  (lw <= inject_Z w)%Q ->
  (0 <= inject_Z (Qfloor ((inject_Z w - lw) / 2)))%Q
  /\ (inject_Z (Qfloor ((inject_Z w - lw) / 2)) + lw <= inject_Z w)%Q
  /\ (inject_Z w - lw - 2 * inject_Z (Qfloor ((inject_Z w - lw) / 2)) < 2)%Q.
Proof.
  intro Hfit.
  pose proof (Qfloor_le ((inject_Z w - lw) / 2)) as Hlo.
  pose proof (Qlt_floor ((inject_Z w - lw) / 2)) as Hhi.
  rewrite inject_Z_plus in Hhi. change (inject_Z 1) with 1%Q in Hhi.
  unfold Qdiv in *. change (/ 2)%Q with (1 # 2)%Q in *.
  assert (H0 : (0 <= (inject_Z w - lw) * (1 # 2))%Q) by lra.
  apply Qfloor_resp_le in H0. rewrite Zle_Qle in H0.
  change (inject_Z (Qfloor 0)) with 0%Q in H0.
  repeat split; lra.
Qed.

Lemma draw_lines_spec (dev : Device) (font : Font) (offset : Z)
    (lines : list string) :
  forall y : Z,
    map text_line (draw_lines font (width dev) offset lines y) = lines
    /\ (forall (k : nat) (op : TextOp),
          nth_error (draw_lines font (width dev) offset lines y) k = Some op ->
          text_y op = y + 14 * Z.of_nat k)
    /\ Forall (placed dev font offset)
         (draw_lines font (width dev) offset lines y).
Proof.
  induction lines as [|line rest IH]; intro y; cbn [draw_lines map].
  - split; [reflexivity|].
    split; [intros [|k] op H; discriminate H | constructor].
  - destruct (IH (y + 14)) as (Hl & Hy & Hp).
    split; [|split].
    + rewrite Hl. now destruct (Py.ltb _ _).
    + intros [|k] op H.
      * cbn [nth_error] in H. injection H as <-.
        destruct (Py.ltb _ _); cbn [text_y]; lia.
      * cbn [nth_error] in H. rewrite (Hy k op H). lia.
    + constructor; [|exact Hp].
      unfold placed.
      destruct (Py.ltb (inject_Z (width dev)) (font line)) eqn:E; simpl.
      * apply ltb_true in E. split; [|reflexivity].
        intro H. exfalso. exact (Qlt_not_le _ _ E H).
      * apply ltb_false in E. split; [|intro H; now contradiction E].
        apply floor_half_centred.
Qed.

Lemma split_nl_nonempty (text : string) : split_nl text <> [].
Proof.
  destruct text as [|c rest]; simpl; [discriminate|].
  destruct (Ascii.eqb _ _); [discriminate|].
  destruct (split_nl rest); discriminate.
Qed.

(** X9: [_draw_multiline_centered] draws the lines of the text in
    order, one call each, 14 pixels apart from the top; a line that
    fits the width is centred to the pixel and lies inside the device;
    a wider line starts [offset] pixels left of the right edge, so with
    offset 0 (the first two screens) none of it is on the display. *)
Theorem multiline_text_placement :
  forall (dev : Device) (font : Font) (text : string) (offset : Z),
    map text_line (_draw_multiline_centered dev font text offset)
    = split_nl text
    /\ _draw_multiline_centered dev font text offset <> []
    /\ (forall (k : nat) (op : TextOp),
          nth_error (_draw_multiline_centered dev font text offset) k = Some op ->
          text_y op = 14 * Z.of_nat k)
    /\ Forall (placed dev font offset)
         (_draw_multiline_centered dev font text offset)
    /\ Forall (fun op =>
                 (inject_Z (width dev) < font (text_line op))%Q ->
                 (inject_Z (width dev) <= text_x op + inject_Z offset)%Q)
         (_draw_multiline_centered dev font text offset).
Proof.
  intros dev font text offset. unfold _draw_multiline_centered.
  destruct (draw_lines_spec dev font offset (split_nl text) 0) as (Hl & Hy & Hp).
  split; [exact Hl|]. split; [|split; [|split]].
  - intro H. rewrite H in Hl. symmetry in Hl.
    now apply split_nl_nonempty in Hl.
  - intros k op H. now rewrite (Hy k op H).
  - exact Hp.
  - eapply Forall_impl; [|exact Hp].
    intros op [_ Hwide] H. rewrite (Hwide H). unfold Z.sub.
    rewrite inject_Z_plus, inject_Z_opp. lra.
Qed.

(** X10: the banner message of [_show_celebration_screen] is centred
    to the pixel: when it fits it lies inside the device with margins
    that differ by less than two pixels; the frame goes round the whole
    display. *)
Theorem celebration_message_centred :
  forall (dev : Device) (font : Font),
    (font "New Order!" <= inject_Z (width dev))%Q ->
    fst (_show_celebration_screen dev font)
    = Rectangle 0 0 (width dev - 1) (height dev - 1) "white" "black"
    /\ text_line (snd (_show_celebration_screen dev font)) = "New Order!"
    /\ (0 <= text_x (snd (_show_celebration_screen dev font)))%Q
    /\ (text_x (snd (_show_celebration_screen dev font)) + font "New Order!"
        <= inject_Z (width dev))%Q
    /\ (inject_Z (width dev) - font "New Order!"
        - 2 * text_x (snd (_show_celebration_screen dev font)) < 2)%Q
    /\ height dev - 13
       <= 2 * text_y (snd (_show_celebration_screen dev font))
       <= height dev - 12.
Proof.
  intros dev font Hfit. unfold _show_celebration_screen.
  cbn [fst snd text_x text_y text_line].
  split; [reflexivity|]. split; [reflexivity|].
  destruct (floor_half_centred (width dev) (font "New Order!") Hfit)
    as (H0 & H1 & H2).
  repeat split; try assumption.
  - pose proof (Z.mul_succ_div_gt (height dev - 12) 2 eq_refl). lia.
  - pose proof (Z.mul_div_le (height dev - 12) 2 eq_refl). lia.
Qed.

Lemma celebration_message_centred_witness :
  (6 * 10 <= inject_Z (width (mkDevice 128 64)))%Q
  /\ text_x (snd (_show_celebration_screen (mkDevice 128 64)
                    (fun line => 6 * inject_Z (Z.of_nat (String.length line)))%Q))
     = 34%Q
  /\ (0 <= text_x (snd (_show_celebration_screen (mkDevice 128 64)
                          (fun line =>
                             6 * inject_Z (Z.of_nat (String.length line)))%Q)))%Q.
Proof.
  split; [discriminate|]. split; [reflexivity|].
  refine (proj1 (proj2 (proj2
            (celebration_message_centred (mkDevice 128 64)
               (fun line => 6 * inject_Z (Z.of_nat (String.length line)))%Q _)))).
  discriminate.
Defined.

(** ** The screens fit the height of the display *)

Lemma split_nl_no_nl (text : string) :
  no_nl text = true -> split_nl text = [text].
Proof.
  induction text as [|c rest IH]; simpl; [reflexivity|].
  intro H. apply andb_true_iff in H as [Hc Hr].
  apply negb_true_iff in Hc. rewrite Hc, (IH Hr). reflexivity.
Qed.

Lemma split_nl_join (a b : string) :
  split_nl (a ++ Py.nl ++ b)%string = split_nl a ++ split_nl b.
Proof.
  induction a as [|c rest IH]; [reflexivity|].
  change ((String c rest ++ Py.nl ++ b)%string)
    with (String c (rest ++ Py.nl ++ b)%string).
  cbn [split_nl]. rewrite IH.
  destruct (Ascii.eqb c (ascii_of_nat 10)); [reflexivity|].
  pose proof (split_nl_nonempty rest).
  destruct (split_nl rest); [congruence | reflexivity].
Qed.

Lemma no_nl_app (a b : string) :
  no_nl (a ++ b)%string = no_nl a && no_nl b.
Proof.
  induction a as [|c rest IH]; simpl; [reflexivity|].
  now rewrite IH, andb_assoc.
Qed.

Lemma no_nl_uint (d : Decimal.uint) : no_nl (NilEmpty.string_of_uint d) = true.
Proof. induction d; simpl; auto. Qed.

Lemma no_nl_str_int (n : Z) : no_nl (Py.str_int n) = true.
Proof.
  unfold Py.str_int, NilZero.string_of_int, NilZero.string_of_uint.
  destruct (Z.to_int n) as [d|d]; destruct d; simpl;
    try reflexivity; apply no_nl_uint.
Qed.

Lemma entry_lines (o : Order) :
  order_no_nl o = true ->
  Forall (fun e => (1 <= List.length (split_nl e) <= 2)%nat) (screen_data o).
Proof.
  unfold order_no_nl. intro H.
  apply andb_true_iff in H as [H Hitems].
  apply andb_true_iff in H as [H Hfirst].
  apply andb_true_iff in H as [H Hcur].
  apply andb_true_iff in H as [Hname Hprice].
  unfold screen_data. apply Forall_app. split.
  - apply Forall_cons; [|apply Forall_cons; [|apply Forall_cons;
      [|apply Forall_cons; [|apply Forall_nil]]]].
    + rewrite split_nl_no_nl; [simpl; lia|]. now rewrite no_nl_app, Hname.
    + rewrite split_nl_no_nl; [simpl; lia|].
      now rewrite !no_nl_app, Hprice, Hcur.
    + rewrite split_nl_no_nl; [simpl; lia|].
      now rewrite no_nl_app, no_nl_str_int.
    + rewrite split_nl_join, !split_nl_no_nl;
        [simpl; lia | exact Hfirst | reflexivity].
  - apply Forall_map. rewrite forallb_forall in Hitems.
    apply Forall_forall. intros item Hin.
    rewrite split_nl_join, !split_nl_no_nl;
      [simpl; lia | now apply Hitems | reflexivity].
Qed.

Lemma paginate_lines (entries : list string) :
  Forall (fun e => (1 <= List.length (split_nl e) <= 2)%nat) entries ->
  Forall (fun scr => (1 <= List.length (split_nl scr) <= 4)%nat)
    (paginate entries).
Proof.
  enough (H : forall l : list string,
             (Forall (fun e => (1 <= List.length (split_nl e) <= 2)%nat) l ->
              Forall (fun scr => (1 <= List.length (split_nl scr) <= 4)%nat)
                (paginate l))
             /\ forall e,
                 Forall (fun e => (1 <= List.length (split_nl e) <= 2)%nat)
                   (e :: l) ->
                 Forall (fun scr => (1 <= List.length (split_nl scr) <= 4)%nat)
                   (paginate (e :: l)))
    by apply H.
  induction l as [|a l [IH1 IH2]].
  - split; [constructor|]. intros e He. inversion He; subst.
    simpl. constructor; [lia | constructor].
  - split; [apply IH2|]. intros e He.
    inversion He as [|? ? He1 He']; subst.
    inversion He' as [|? ? Ha Hl]; subst.
    change (paginate (e :: a :: l))
      with ((e ++ Py.nl ++ a)%string :: paginate l).
    constructor; [|now apply IH1].
    rewrite split_nl_join, length_app. lia.
Qed.

(** X11: when no field of the order has a line break, every screen
    built from it has at most 4 lines, so every line of a screen is
    drawn at a height between 0 and 42: with lines 14 pixels high the
    text of a screen ends within 56 pixels. *)
Theorem screens_fit_height :
  forall (o : Order) (dev : Device) (font : Font) (offset : Z)
         (screen : string) (op : TextOp),
    order_no_nl o = true ->
    In screen (_create_order_screens o) ->
    In op (_draw_multiline_centered dev font screen offset) ->
    (1 <= List.length (split_nl screen) <= 4)%nat
    /\ 0 <= text_y op <= 42.
Proof.
  intros o dev font offset screen op Hno Hscr Hop.
  rewrite create_order_screens_paginate in Hscr.
  pose proof (paginate_lines _ (entry_lines o Hno)) as Hall.
  rewrite Forall_forall in Hall. pose proof (Hall screen Hscr) as Hlen.
  split; [exact Hlen|].
  apply In_nth_error in Hop as [k Hk].
  unfold _draw_multiline_centered in *.
  destruct (draw_lines_spec dev font offset (split_nl screen) 0)
    as (Hl & Hy & _).
  rewrite (Hy k op Hk).
  assert (Hk' : (k < List.length (split_nl screen))%nat).
  { rewrite <- Hl, length_map. apply nth_error_Some. congruence. }
  lia.
Qed.

Lemma screens_fit_height_witness :
  order_no_nl order_1001 = true
  /\ In ("Items: 2" ++ Py.nl ++ "Customer:" ++ Py.nl ++ "Alice")%string
       (_create_order_screens order_1001)
  /\ In (mkTextOp 49 28 "Alice")
       (_draw_multiline_centered (mkDevice 128 64)
          (fun line => 6 * inject_Z (Z.of_nat (String.length line)))%Q
          ("Items: 2" ++ Py.nl ++ "Customer:" ++ Py.nl ++ "Alice")%string 0)
  /\ 0 <= text_y (mkTextOp 49 28 "Alice") <= 42.
Proof.
  split; [reflexivity|].
  assert (H1 : In ("Items: 2" ++ Py.nl ++ "Customer:" ++ Py.nl ++ "Alice")%string
                 (_create_order_screens order_1001))
    by (right; left; reflexivity).
  assert (H2 : In (mkTextOp 49 28 "Alice")
                 (_draw_multiline_centered (mkDevice 128 64)
                    (fun line => 6 * inject_Z (Z.of_nat (String.length line)))%Q
                    ("Items: 2" ++ Py.nl ++ "Customer:" ++ Py.nl ++ "Alice")%string
                    0))
    by (right; right; left; reflexivity).
  split; [exact H1|]. split; [exact H2|].
  exact (proj2 (screens_fit_height order_1001 (mkDevice 128 64) _ 0 _ _
                  eq_refl H1 H2)).
Defined.

(** * Properties of the payload *)

Lemma sum_quantities_encoded (items : list LineItem) (vs : list Json) :
  Forall2 item_encodes items vs ->
  forall acc : Z,
    sum_quantities vs acc = Done (fold_left Z.add (map quantity items) acc).
Proof.
  induction 1 as [|item v items vs (fields & -> & _ & Hq) _ IH]; intro acc.
  - reflexivity.
  - cbn [sum_quantities subscript]. rewrite Hq. cbn [bind add_quantity].
    apply IH.
Qed.

Lemma product_entries_encoded (items : list LineItem) (vs : list Json) :
  Forall2 item_encodes items vs ->
  product_entries vs
  = Done (map (fun item => ("Product:" ++ Py.nl ++ item_name item)%string) items).
Proof.
  induction 1 as [|item v items vs (fields & -> & Hn & _) _ IH].
  - reflexivity.
  - cbn [product_entries subscript]. rewrite Hn. cbn [bind format_value].
    now rewrite IH.
Qed.

Lemma order_fields_encodes (o : Order) : encodes o (JObj (order_fields o)).
Proof.
  exists (order_fields o), [("first_name", JStr (first_name (customer o)))],
    (map (fun item => JObj (item_fields item)) (line_items o)).
  repeat split.
  induction (line_items o) as [|item rest IH]; constructor; [|exact IH].
  exists (item_fields item). now repeat split.
Qed.

(** X13: on a payload that is an object holding the name, the total
    price and the currency as strings, the customer with a first name,
    and the line items with a name and an integer quantity each, other
    keys ignored, [_create_order_screens] raises nothing and builds the
    screens of the order. *)
Theorem create_order_screens_raw_agrees :
  forall (o : Order) (data : Json),
    encodes o data ->
    create_order_screens_raw data = Done (_create_order_screens o).
Proof.
  intros o data (fields & cfields & items & -> & Hn & Hp & Hc & Hcu & Hf & Hl & Hi).
  unfold create_order_screens_raw.
  cbn [subscript]. rewrite Hl, Hn, Hp, Hc, Hcu. cbn [bind iterate subscript].
  rewrite (sum_quantities_encoded _ _ Hi 0), Hf. cbn [bind format_value].
  rewrite (product_entries_encoded _ _ Hi). cbn [bind].
  reflexivity.
Qed.

Lemma create_order_screens_raw_agrees_witness :
  encodes order_1001 (JObj (("id", JInt 820982911946154508)
                            :: order_fields order_1001))
  /\ create_order_screens_raw (JObj (("id", JInt 820982911946154508)
                                     :: order_fields order_1001))
     = Done (_create_order_screens order_1001).
Proof.
  assert (H : encodes order_1001 (JObj (("id", JInt 820982911946154508)
                                        :: order_fields order_1001))).
  { destruct (order_fields_encodes order_1001)
      as (fields & cfields & items & Hd & H).
    injection Hd as <-.
    exists (("id", JInt 820982911946154508) :: order_fields order_1001),
      cfields, items.
    split; [reflexivity | exact H]. }
  split; [exact H|].
  exact (create_order_screens_raw_agrees order_1001 _ H).
Defined.

Lemma lookup_remove_other (key k : string) (fields : list (string * Json)) :
  k <> key -> lookup k (remove_key key fields) = lookup k fields.
Proof.
  intro Hne. induction fields as [|[k' v] rest IH]; [reflexivity|].
  simpl. destruct (String.eqb k' key) eqn:E; simpl.
  - apply String.eqb_eq in E. subst k'.
    destruct (String.eqb key k) eqn:E'; [|exact IH].
    apply String.eqb_eq in E'. congruence.
  - now rewrite IH.
Qed.

Lemma lookup_remove_same (key : string) (fields : list (string * Json)) :
  lookup key (remove_key key fields) = None.
Proof.
  induction fields as [|[k v] rest IH]; [reflexivity|].
  simpl. destruct (String.eqb k key) eqn:E; simpl; [exact IH|].
  now rewrite E.
Qed.

(** X14: a payload that is not an object makes [_create_order_screens]
    raise [TypeError]; an object without ['line_items'] makes it raise
    [KeyError] for that key, whatever else it holds; and the object of
    an order with one of its five keys taken away makes it raise
    [KeyError] for the key taken away. *)
Theorem create_order_screens_raw_missing_key :
  forall (o : Order) (key : string),
    In key ["name"; "total_price"; "currency"; "customer"; "line_items"] ->
    create_order_screens_raw (JObj (remove_key key (order_fields o)))
    = Raises (KeyError key)
    /\ (forall fields : list (string * Json),
          lookup "line_items" fields = None ->
          create_order_screens_raw (JObj fields)
          = Raises (KeyError "line_items"))
    /\ (forall items : list Json,
          create_order_screens_raw JNull = Raises TypeError
          /\ create_order_screens_raw (JList items) = Raises TypeError).
Proof.
  intros o key Hin. split; [|split].
  - pose proof (order_fields_encodes o)
      as (fields & cfields & items & Hd & Hn & Hp & Hc & Hcu & Hf & Hl & Hi).
    injection Hd as <-.
    unfold create_order_screens_raw. cbn [subscript].
    simpl in Hin.
    destruct Hin as [<- | [<- | [<- | [<- | [<- | []]]]]];
      rewrite ?lookup_remove_same, ?lookup_remove_other by discriminate;
      rewrite ?Hl, ?Hn, ?Hp, ?Hc, ?Hcu; cbn [bind iterate subscript];
      rewrite ?(sum_quantities_encoded _ _ Hi 0); cbn [bind format_value];
      rewrite ?lookup_remove_same, ?lookup_remove_other by discriminate;
      rewrite ?Hn, ?Hp, ?Hc, ?Hcu; cbn [bind format_value subscript];
      rewrite ?lookup_remove_same, ?lookup_remove_other by discriminate;
      rewrite ?Hn, ?Hp, ?Hc, ?Hcu; cbn [bind format_value subscript];
      rewrite ?lookup_remove_same, ?lookup_remove_other by discriminate;
      rewrite ?Hn, ?Hp, ?Hc, ?Hcu; cbn [bind format_value subscript];
      reflexivity.
  - intros fields H. unfold create_order_screens_raw. cbn [subscript].
    now rewrite H.
  - intro items. now split.
Qed.

Lemma create_order_screens_raw_missing_key_witness :
  In "customer" ["name"; "total_price"; "currency"; "customer"; "line_items"]
  /\ create_order_screens_raw
       (JObj (remove_key "customer" (order_fields order_1001)))
     = Raises (KeyError "customer").
Proof.
  assert (H : In "customer"
                ["name"; "total_price"; "currency"; "customer"; "line_items"])
    by (right; right; right; left; reflexivity).
  split; [exact H|].
  exact (proj1 (create_order_screens_raw_missing_key order_1001 "customer" H)).
Defined.

(** * Further invariants of the session *)

(** X15: runs of the loop compose: while the loop goes on, running it
    on [a ++ b] is running it on [a] and then on [b], and the passes
    carried out add up; once it has stopped or crashed, further passes
    change nothing; and after [stop] no pass is carried out at all. *)
Theorem display_loop_app :
  forall (a b : list Tick) (s : DisplayManager),
    (snd (display_loop a s) = Looping ->
       display_loop (a ++ b) s = display_loop b (fst (display_loop a s))
       /\ passes_completed (a ++ b) s
          = (passes_completed a s
             + passes_completed b (fst (display_loop a s)))%nat)
    /\ (snd (display_loop a s) <> Looping ->
          display_loop (a ++ b) s = display_loop a s
          /\ passes_completed (a ++ b) s = passes_completed a s)
    /\ display_loop b (stop s) = (stop s, Stopped)
    /\ passes_completed b (stop s) = 0%nat.
Proof.
  intros a b s. split; [|split; [|split]].
  - revert s. induction a as [|t rest IH]; intros s H; simpl in *.
    + now split.
    + destruct (running s); [|discriminate].
      destruct (loop_iteration t s) as [s' [e|]]; [discriminate|].
      destruct (IH s' H) as [-> ->]. now split.
  - revert s. induction a as [|t rest IH]; intros s H; simpl in *.
    + destruct (running s) eqn:Er; [now contradiction H|].
      destruct b; simpl; now rewrite Er.
    + destruct (running s); [|now split].
      destruct (loop_iteration t s) as [s' [e|]]; [now split|].
      destruct (IH s' H) as [-> ->]. now split.
  - now destruct b.
  - now destruct b.
Qed.

(** X16: the first two screens never scroll: a pass in [ORDER_INFO]
    with [screen_index <= 1] leaves the offset as it is or, when it
    advances, sets it to 0; it never steps it.  In a session that
    satisfies the invariant the offset is 0 before and after. *)
Theorem first_screens_never_scroll :
  forall (s : DisplayManager) (t : Tick),
    display_state s = ORDER_INFO ->
    screen_index s <= 1 ->
    (scroll_position (after_tick t s) = scroll_position s
     \/ scroll_position (after_tick t s) = 0)
    /\ (session_inv s ->
        scroll_position s = 0 /\ scroll_position (after_tick t s) = 0).
Proof.
  intros s t E Hi.
  assert (Hs : forall text, scrolled s text = s).
  { intro text. unfold scrolled.
    replace (screen_index s >? 1) with false; [reflexivity|].
    symmetry. rewrite Z.gtb_ltb. now apply Z.ltb_ge. }
  assert (H : scroll_position (after_tick t s) = scroll_position s
              \/ scroll_position (after_tick t s) = 0).
  { rewrite after_tick_body. unfold loop_body. rewrite E.
    destruct (order_info_pass_cases t s)
      as [[-> _] | (text & _ & _ & [-> | ->])]; [now left | |].
    - left. now rewrite Hs.
    - right. rewrite Hs.
      now destruct (advance_screen_effect t s) as (_ & _ & H & _). }
  split; [exact H|].
  intros (_ & _ & _ & Hst). rewrite E in Hst.
  destruct Hst as (_ & _ & _ & Hz & _). specialize (Hz Hi).
  split; [exact Hz|]. destruct H as [H | H]; congruence.
Qed.

Lemma first_screens_never_scroll_witness :
  display_state on_screen_1 = ORDER_INFO
  /\ screen_index on_screen_1 <= 1
  /\ session_inv on_screen_1
  /\ scroll_position on_screen_1 = 0
  /\ scroll_position (after_tick (tick_at 14) on_screen_1) = 0.
Proof.
  assert (H : screen_index on_screen_1 <= 1) by discriminate.
  split; [reflexivity|]. split; [exact H|]. split; [exact on_screen_1_inv|].
  exact (proj2 (first_screens_never_scroll on_screen_1 (tick_at 14) eq_refl H)
           on_screen_1_inv).
Defined.
